(** * Image generation job pipeline: job messages, queue gateway,
    repositories, credit service, background worker and submission
    endpoint.

    Shallow embedding of [app/services/queue_service.py],
    [app/repositories/base_repository.py],
    [app/repositories/generation_repository.py],
    [app/repositories/user_repository.py],
    [app/services/credit_service.py],
    [app/services/replicate_service.py] (artifact download),
    [app/services/azure_blob_service.py] (the value [upload_image]
    returns), [app/services/worker_service.py] and
    [app/api/v1/endpoints/generate.py].

    Conventions of the embedding.
    - Python [int] is [Z]; [str] is [string]; [Optional[T]] is [option T].
    - A raising call returns [Raise e]; a returning call returns [Ok v].
      Only exceptions derived from [Exception] are values of [exn]:
      [asyncio.CancelledError], [KeyboardInterrupt] and [SystemExit],
      which derive from [BaseException] alone and pass through every
      [except Exception] clause, are outside the embedding.
    - [datetime.utcnow()] and [uuid4()] are inputs: every function that
      reads them takes the value read as an argument. The clock counts
      milliseconds and does not advance inside one repository call.
    - MongoDB documents are finite maps from field names to values, a
      collection is the list of its documents in natural order, and [$set]
      is a left-biased union of the update with the stored document. The
      server is reachable and accepts the writes.
    - The Service Bus broker is observed through the settlement calls made
      on the receiver ([complete_message], [abandon_message],
      [dead_letter_message]), collected in a trace. *)

From Stdlib Require Import ZArith Ascii String List Bool Lia.
From stdpp Require Import gmap strings list fin_maps pretty.

Local Open Scope string_scope.
Local Open Scope list_scope.
Local Open Scope Z_scope.

(** ** Exceptions and results *)

(** The exception classes raised or caught in the files embedded here,
    all of them derived from [Exception]. [ServiceBusError] stands for the
    class and its subclasses other than [MessageLockLostError] and
    [MessageSizeExceededError]. *)
Inductive exception_class : Type :=
  | Exception
  | KeyError
  | ValueError
  | JSONDecodeError
  | TypeError
  | AttributeError
  | RuntimeError
  | ServiceBusError
  | MessageSizeExceededError
  | RetryError
  | ValidationError
  | HTTPError
  | InsufficientCreditsError
  | ContentSafetyError
  | ReplicateAPIError
  | ReplicateTimeoutError
  | ReplicateRateLimitError.

(** An exception is its class and its text; [MessageLockLostError] is
    singled out because [receive_messages] has an [except] clause of its
    own for it. *)
Inductive exn : Type :=
  | MessageLockLostError
  | Raised (cls : exception_class) (msg : string).

(** [str(e)] *)
Definition str_exn (e : exn) : string :=
  match e with
  | MessageLockLostError => "MessageLockLostError"
  | Raised _ msg => msg
  end.

Inductive result (A : Type) : Type :=
  | Ok (a : A)
  | Raise (e : exn).
Arguments Ok {A} a.
Arguments Raise {A} e.

Definition bind {A B : Type} (r : result A) (k : A -> result B) : result B :=
  match r with
  | Ok a => k a
  | Raise e => Raise e
  end.

Notation "'let*' x ':=' r 'in' k" := (bind r (fun x => k))
  (at level 10, x name, r at level 100, k at level 200).

Definition is_ok {A : Type} (r : result A) : bool :=
  match r with Ok _ => true | Raise _ => false end.

(** What the process observes of its surroundings when it builds a job
    message: the clock and the next random UUID. *)
Record ambient : Type := Ambient {
  utcnow : Z;
  uuid4 : string
}.

(** * queue_service.py *)
Module queue_service.

(** Values of the open [settings] bag. *)
Inductive json : Type :=
  | JNull
  | JBool (b : bool)
  | JInt (z : Z)
  | JStr (s : string).

(** ** class GenerationJobMessage *)
Record GenerationJobMessage : Type := mkJob {
  generation_id : string;
  user_id : string;
  job_type : string;
  prompt : string;
  model : string;
  settings : gmap string json;
  callback_url : option string;
  priority : string;
  attempt : Z;
  created_at : Z;
  message_id : string
}.

(** [__init__]: [created_at] and [message_id] are not parameters; they are
    read from the clock and from [uuid4()] at every construction. *)
Definition init (e : ambient)
    (generation_id user_id prompt model job_type : string)
    (settings : option (gmap string json)) (callback_url : option string)
    (priority : string) (attempt : Z) : GenerationJobMessage :=
  {| generation_id := generation_id;
     user_id := user_id;
     job_type := job_type;
     prompt := prompt;
     model := model;
     settings := default ∅ settings;          (* settings or {} *)
     callback_url := callback_url;
     priority := priority;
     attempt := attempt;
     created_at := utcnow e;
     message_id := uuid4 e |}.

(** Defaults of the keyword arguments of [__init__]. *)
Definition default_job_type : string := "text_to_image".
Definition default_priority : string := "normal".
Definition default_attempt : Z := 1.

(** The wire dictionary, restricted to the keys the class writes and reads.
    [None] is an absent key; [Some None] for [settings] and [callback_url]
    is a key holding Python [None]. *)
Record wire_dict : Type := mkWire {
  w_message_id : option string;
  w_generation_id : option string;
  w_user_id : option string;
  w_type : option string;
  w_prompt : option string;
  w_model : option string;
  w_settings : option (option (gmap string json));
  w_callback_url : option (option string);
  w_priority : option string;
  w_attempt : option Z;
  w_created_at : option Z
}.

Definition to_dict (m : GenerationJobMessage) : wire_dict :=
  {| w_message_id := Some (message_id m);
     w_generation_id := Some (generation_id m);
     w_user_id := Some (user_id m);
     w_type := Some (job_type m);
     w_prompt := Some (prompt m);
     w_model := Some (model m);
     w_settings := Some (Some (settings m));
     w_callback_url := Some (callback_url m);
     w_priority := Some (priority m);
     w_attempt := Some (attempt m);
     w_created_at := Some (created_at m) |}.

(** [data[key]] *)
Definition subscript {A : Type} (key : string) (v : option A) : result A :=
  match v with
  | Some a => Ok a
  | None => Raise (Raised KeyError ("'" ++ key ++ "'")%string)
  end.

(** [data.get(key)] for a key that may hold [None] *)
Definition get_opt {A : Type} (v : option (option A)) : option A :=
  match v with
  | Some a => a
  | None => None
  end.

(** [from_dict]: the four required keys are subscripted in the order of the
    call; [message_id] and [created_at] of the dictionary are not read. *)
Definition from_dict (e : ambient) (data : wire_dict)
    : result GenerationJobMessage :=
  let* gid := subscript "generation_id" (w_generation_id data) in
  let* uid := subscript "user_id" (w_user_id data) in
  let* p := subscript "prompt" (w_prompt data) in
  let* mdl := subscript "model" (w_model data) in
  Ok (init e gid uid p mdl
        (default default_job_type (w_type data))
        (get_opt (w_settings data))
        (get_opt (w_callback_url data))
        (default default_priority (w_priority data))
        (default default_attempt (w_attempt data))).

(** The body of a broker message, by what [json.loads] makes of it: text
    that is not JSON, with the message of the decoder's error, or the
    object it denotes. [json.dumps] followed by [json.loads] is the
    identity on objects. *)
Inductive body : Type :=
  | Malformed (text decoder_message : string)
  | Object (d : wire_dict).

Definition json_dumps (d : wire_dict) : body := Object d.

Definition json_loads (b : body) : result wire_dict :=
  match b with
  | Malformed _ decoder_message =>
      Raise (Raised JSONDecodeError decoder_message)
  | Object d => Ok d
  end.

Definition to_json (m : GenerationJobMessage) : body := json_dumps (to_dict m).

Definition from_json (e : ambient) (b : body) : result GenerationJobMessage :=
  let* d := json_loads b in from_dict e d.

(** ** class AzureServiceBusService *)

(** A [ServiceBusMessage]: body, broker-level message identifier and the
    application properties attached for filtering. *)
Record ServiceBusMessage : Type := mkMessage {
  sb_body : body;
  sb_message_id : string;
  application_properties : list (string * string);
  scheduled_enqueue_time_utc : option Z
}.

(** What the sender does with a message handed to [send_messages]. *)
Inductive transport : Type :=
  | Delivered
  | BusFailure (msg : string)      (* raises ServiceBusError *)
  | OtherFailure (msg : string).   (* raises another exception *)

(** The main queue and its dead-letter sub-queue, oldest message first. *)
Record queues : Type := mkQueues {
  main_queue : list ServiceBusMessage;
  deadletter : list ServiceBusMessage
}.

(** One run of the body of [send_generation_request]. The function has no
    [attempt] parameter: the job message is built with the default. *)
Definition send_generation_request (e : ambient) (t : transport)
    (generation_id user_id prompt model job_type : string)
    (settings : option (gmap string json)) (callback_url : option string)
    (priority : string) (scheduled_enqueue_time : option Z)
    (q : queues) : result bool * queues :=
  let job_message :=
    init e generation_id user_id prompt model job_type settings callback_url
         priority default_attempt in
  let message :=
    {| sb_body := to_json job_message;
       sb_message_id := message_id job_message;
       application_properties :=
         [("generation_id", generation_id); ("user_id", user_id);
          ("priority", priority); ("job_type", job_type)];
       scheduled_enqueue_time_utc := scheduled_enqueue_time |} in
  match t with
  | Delivered =>
      (Ok true, {| main_queue := main_queue q ++ [message];
                   deadletter := deadletter q |})
  | BusFailure msg => (Raise (Raised ServiceBusError msg), q)
  | OtherFailure _ => (Ok false, q)
  end.

(** [send_generation_request] as its callers get it, under the decorator
    [@retry(stop_after_attempt(3), retry_if_exception_type(ServiceBusError))]:
    the body is run again, with a new job message, while it raises; after
    the third run that raises, [RetryError] is raised in its place.
    [ambient_at n] and [transport_at n] are the clock, UUID and sender of
    the run numbered [n]. *)
Fixpoint send_retrying (attempts n : nat)
    (ambient_at : nat -> ambient) (transport_at : nat -> transport)
    (generation_id user_id prompt model job_type : string)
    (settings : option (gmap string json)) (callback_url : option string)
    (priority : string) (scheduled_enqueue_time : option Z)
    (q : queues) : result bool * queues :=
  match attempts with
  | O => (Raise (Raised RetryError "RetryError"), q)
  | S attempts' =>
      match send_generation_request (ambient_at n) (transport_at n)
              generation_id user_id prompt model job_type settings
              callback_url priority scheduled_enqueue_time q with
      | (Raise _, q') =>
          send_retrying attempts' (S n) ambient_at transport_at
            generation_id user_id prompt model job_type settings
            callback_url priority scheduled_enqueue_time q'
      | (Ok sent, q') => (Ok sent, q')
      end
  end.

(** Settlement calls made on a receiver. *)
Inductive settlement : Type :=
  | Complete
  | Abandon
  | DeadLetter (reason error_description : string).

(** A settlement call with the broker identifier of the message settled. *)
Definition event : Type := string * settlement.

Section receive.
(** [W] is the state the processor callback works on; [E] is what the
    outside world does while one delivery is handled, of which
    [ambient_of] gives the clock and UUID read when the body is parsed. *)
Context {W E : Type}.
Variable ambient_of : E -> ambient.

Definition processor_callback : Type :=
  E -> GenerationJobMessage -> ServiceBusMessage -> W -> result bool * W.

(** State of the loop of [receive_messages]. *)
Record loop_state : Type := mkLoop {
  messages_received : list (GenerationJobMessage * ServiceBusMessage);
  settled : list event;
  callback_state : W;
  stopped : bool                (* the loop has taken [break] *)
}.

(** The two [except] clauses of the loop body: a lost lock is logged, any
    other exception derived from [Exception] dead-letters the message.
    Neither reaches the [max_messages] test. Every value of [exn] falls
    under one of the two clauses. *)
Definition on_exception (message : ServiceBusMessage) (ex : exn)
    (st : loop_state) (w : W) : loop_state :=
  match ex with
  | MessageLockLostError =>
      mkLoop (messages_received st) (settled st) w false
  | Raised _ _ =>
      mkLoop (messages_received st)
             (settled st ++
                [(sb_message_id message,
                  DeadLetter "ProcessingError" (str_exn ex))])
             w false
  end.

(** [if len(messages_received) >= max_messages: break] *)
Definition reached (max_messages : Z)
    (received : list (GenerationJobMessage * ServiceBusMessage)) : bool :=
  max_messages <=? Z.of_nat (length received).

(** One iteration of [async for message in receiver]. *)
Definition receive_one (max_messages : Z) (cb : option processor_callback)
    (x : E * ServiceBusMessage) (st : loop_state) : loop_state :=
  let '(env, message) := x in
  let w := callback_state st in
  match from_json (ambient_of env) (sb_body message) with
  | Raise ex => on_exception message ex st w
  | Ok job_message =>
      match cb with
      | Some callback =>
          match callback env job_message message w with
          | (Ok success, w') =>
              let s := if success then Complete else Abandon in
              mkLoop (messages_received st)
                     (settled st ++ [(sb_message_id message, s)])
                     w'
                     (reached max_messages (messages_received st))
          | (Raise ex, w') => on_exception message ex st w'
          end
      | None =>
          let received := messages_received st ++ [(job_message, message)] in
          mkLoop received (settled st) w (reached max_messages received)
      end
  end.

(** The loop over the messages the receiver yields before [max_wait_time]
    runs out. *)
Fixpoint receive_loop (max_messages : Z) (cb : option processor_callback)
    (incoming : list (E * ServiceBusMessage)) (st : loop_state)
    : loop_state :=
  match incoming with
  | [] => st
  | x :: rest =>
      let st' := receive_one max_messages cb x st in
      if stopped st' then st' else receive_loop max_messages cb rest st'
  end.

Definition receive_messages (max_messages : Z)
    (cb : option processor_callback)
    (incoming : list (E * ServiceBusMessage)) (w : W) : loop_state :=
  receive_loop max_messages cb incoming (mkLoop [] [] w false).
End receive.

(** [receiver.complete_message(message)]: the first message with that
    identifier leaves the queue. *)
Fixpoint complete_message (mid : string) (q : list ServiceBusMessage)
    : list ServiceBusMessage :=
  match q with
  | [] => []
  | m :: rest =>
      if String.eqb (sb_message_id m) mid then rest
      else m :: complete_message mid rest
  end.

(** [resubmit_dead_letter_message]. The dead-letter receiver is read until
    a message with the given identifier comes; [e_parse] is read when its
    body is parsed, [ambient_at] and [transport_at] by the runs of
    [send_generation_request]. [completion] is what
    [receiver.complete_message] does with the dead-lettered message:
    [None] when it completes it, [Some e] when it raises [e]. The value
    returned by [send_generation_request] is not looked at; an exception,
    whether of the parse, of the send or of the completion, is caught and
    gives [False]. When the completion raises, the message sent stays on
    the main queue and the dead-lettered one in the dead-letter queue. *)
Definition resubmit_dead_letter_message (e_parse : ambient)
    (ambient_at : nat -> ambient) (transport_at : nat -> transport)
    (completion : option exn) (message_id : string) (q : queues)
    : bool * queues :=
  match List.find (fun m => String.eqb (sb_message_id m) message_id)
                  (deadletter q) with
  | None => (false, q)
  | Some message =>
      match from_json e_parse (sb_body message) with
      | Raise _ => (false, q)
      | Ok parsed =>
          (* job_message.attempt += 1 *)
          let job_message :=
            mkJob (generation_id parsed) (user_id parsed) (job_type parsed)
                  (prompt parsed) (model parsed) (settings parsed)
                  (callback_url parsed) (priority parsed)
                  (attempt parsed + 1)
                  (created_at parsed) (queue_service.message_id parsed) in
          match send_retrying 3 0 ambient_at transport_at
                  (generation_id job_message) (user_id job_message)
                  (prompt job_message) (model job_message)
                  (job_type job_message) (Some (settings job_message))
                  (callback_url job_message) (priority job_message)
                  None q with
          | (Raise _, q') => (false, q')
          | (Ok _, q') =>
              (* receiver.complete_message(message) *)
              match completion with
              | Some _ => (false, q')
              | None =>
                  (true,
                   {| main_queue := main_queue q';
                      deadletter :=
                        complete_message (sb_message_id message)
                                         (deadletter q') |})
              end
          end
      end
  end.

(** [except ServiceBusError] in the send functions: the class and its
    subclasses. *)
Definition is_service_bus_error (e : exn) : bool :=
  match e with
  | MessageLockLostError => true
  | Raised ServiceBusError _ => true
  | Raised MessageSizeExceededError _ => true
  | Raised _ _ => false
  end.

(** The broker message [send_batch_requests] builds for a job. *)
Definition batch_message (job_message : GenerationJobMessage)
    : ServiceBusMessage :=
  {| sb_body := to_json job_message;
     sb_message_id := message_id job_message;
     application_properties :=
       [("generation_id", generation_id job_message);
        ("user_id", user_id job_message);
        ("priority", priority job_message)];
     scheduled_enqueue_time_utc := None |}.

Section batches.
(** [fits batch message]: [batch.add_message(message)] accepts the message
    into a batch with these contents; otherwise it raises [too_large], a
    [ValueError]. [transport_of] is what the sender does with a batch. *)
Variable fits : list ServiceBusMessage -> ServiceBusMessage -> bool.
Variable too_large : exn.
Variable transport_of : list ServiceBusMessage -> transport.

(** The [for] loop of [send_batch_requests]: the open batch and the
    batches sent so far. The batches sent stay sent when the loop raises. *)
Fixpoint fill (messages : list GenerationJobMessage)
    (batch : list ServiceBusMessage) (sent : list (list ServiceBusMessage))
    : result (list ServiceBusMessage) * list (list ServiceBusMessage) :=
  match messages with
  | [] => (Ok batch, sent)
  | job_message :: rest =>
      let message := batch_message job_message in
      if fits batch message then fill rest (batch ++ [message]) sent
      else
        (* except ValueError: send the batch and open a new one *)
        match transport_of batch with
        | Delivered =>
            if fits [] message then fill rest [message] (sent ++ [batch])
            else (Raise too_large, sent ++ [batch])
        | BusFailure msg => (Raise (Raised ServiceBusError msg), sent)
        | OtherFailure msg => (Raise (Raised Exception msg), sent)
        end
  end.

Definition enqueue (sent : list (list ServiceBusMessage)) (q : queues)
    : queues :=
  {| main_queue := main_queue q ++ concat sent;
     deadletter := deadletter q |}.

(** [send_batch_requests]: [ServiceBusError] is raised again, any other
    exception gives [False]. *)
Definition send_batch_requests (messages : list GenerationJobMessage)
    (q : queues) : result bool * queues :=
  match fill messages [] [] with
  | (Ok batch, sent) =>
      if (0 <? length batch)%nat then
        match transport_of batch with
        | Delivered => (Ok true, enqueue (sent ++ [batch]) q)
        | BusFailure msg =>
            (Raise (Raised ServiceBusError msg), enqueue sent q)
        | OtherFailure _ => (Ok false, enqueue sent q)
        end
      else (Ok true, enqueue sent q)
  | (Raise e, sent) =>
      if is_service_bus_error e then (Raise e, enqueue sent q)
      else (Ok false, enqueue sent q)
  end.
End batches.

End queue_service.

(** * The database: collections of [mongodb_service.py] and the
    repositories over them *)
Module mongodb.

(** [app/models/generation.py], class GenerationStatus *)
Inductive GenerationStatus : Type :=
  | PENDING | PROCESSING | COMPLETED | FAILED | CANCELLED.

(** [status.value], the string that is stored for a status *)
Definition value_of (s : GenerationStatus) : string :=
  match s with
  | PENDING => "pending"
  | PROCESSING => "processing"
  | COMPLETED => "completed"
  | FAILED => "failed"
  | CANCELLED => "cancelled"
  end.

(** The dictionary [_upload_images] appends for one stored artifact. *)
Record blob_record : Type := mkBlob {
  blob_url : string;
  thumbnail_url : option string;
  cdn_url : string;
  cdn_thumbnail_url : option string;
  blob_path : string;
  file_size : Z;
  dimensions : option (Z * Z)
}.

(** Field values of a generation document. [VElapsedMs since now] is the
    integer [int((now - since).total_seconds() * 1000)]: the product is a
    floating-point one and its truncation is, for some whole numbers of
    milliseconds, one less than [now - since], so the value is kept as
    the code computes it. *)
Inductive value : Type :=
  | VNone
  | VStr (s : string)
  | VInt (z : Z)
  | VTime (t : Z)
  | VElapsedMs (since now : Z)
  | VDimensions (d : Z * Z)
  | VOutputs (l : list blob_record)
  | VMetadata (predict_time : option Z) (total_outputs : nat).

(** A document of the generations collection. *)
Abbreviation document := (gmap string value) (only parsing).

(** [app/models/subscription.py], class Subscription, by the fields that
    concern credits. *)
Record Subscription : Type := mkSubscription {
  id : string;
  sub_user_id : string;
  plan : string;
  credits_per_month : Z;
  credits_used_this_period : Z;
  updated_at : Z
}.

(** One entry of the usage log, with the fields [credit_service.py] names
    for its entries. *)
Record UsageLog : Type := mkUsageLog {
  log_user_id : string;
  log_generation_id : option string;
  credits_used : Z;
  action : string;
  metadata : list (string * string)
}.

(** The collections. [generations] holds the generation documents in
    natural order; nothing makes their [id] fields differ from one
    another. [model_class] is the class the generation repository was
    built with ([Generation]), by what the call of [self.model_class] does
    with a document read from the collection, once its [_id] has been
    moved to [id] as a string: the model, or the exception pydantic raises
    when the document does not validate. [users] keeps
    the [credits_remaining] field of each user document by the user's
    [id], and [users_updated_at] its [updated_at] field; subscriptions are
    keyed by the user they belong to. *)
Record database : Type := mkDatabase {
  generations : list document;
  model_class : document -> result document;
  users : gmap string Z;
  users_updated_at : gmap string Z;
  subscriptions : gmap string Subscription;
  usage_logs : list UsageLog
}.

Definition with_generations (g : list document) (db : database) : database :=
  mkDatabase g (model_class db) (users db) (users_updated_at db)
             (subscriptions db) (usage_logs db).

Definition with_users (u : gmap string Z) (db : database) : database :=
  mkDatabase (generations db) (model_class db) u (users_updated_at db)
             (subscriptions db) (usage_logs db).

Definition with_users_updated_at (t : gmap string Z) (db : database)
    : database :=
  mkDatabase (generations db) (model_class db) (users db) t
             (subscriptions db) (usage_logs db).

(** The collections of the credit ledger. *)
Definition ledger_of (db : database)
    : gmap string Z * gmap string Z * gmap string Subscription
      * list UsageLog :=
  (users db, users_updated_at db, subscriptions db, usage_logs db).

(** ** The generations collection *)

(** The filter [{"id": document_id}] *)
Definition has_id (document_id : string) (doc : document) : bool :=
  match doc !! "id" with
  | Some (VStr s) => String.eqb s document_id
  | _ => false
  end.

(** [collection.find_one({"id": document_id})]: the first document that
    matches. *)
Definition find_one (document_id : string) (db : database)
    : option document :=
  List.find (has_id document_id) (generations db).

(** [collection.find_one_and_update({"id": document_id},
    {"$set": update_data}, return_document=AFTER)]: the first document
    that matches gets every field of [update_data], its [id] included when
    the update names it; the document after the update and the collection
    after it are returned. *)
Fixpoint find_one_and_update (document_id : string) (update_data : document)
    (collection : list document) : option (document * list document) :=
  match collection with
  | [] => None
  | doc :: rest =>
      if has_id document_id doc
      then Some (update_data ∪ doc, (update_data ∪ doc) :: rest)
      else
        match find_one_and_update document_id update_data rest with
        | Some (result, rest') => Some (result, doc :: rest')
        | None => None
        end
  end.

(** [collection.delete_one({"id": document_id})] *)
Fixpoint delete_one (document_id : string) (collection : list document)
    : option (list document) :=
  match collection with
  | [] => None
  | doc :: rest =>
      if has_id document_id doc then Some rest
      else (fun rest' => doc :: rest') <$> delete_one document_id rest
  end.

(** ** base_repository.py, on the generations collection *)

(** [find_by_id]: the document found is handed to the model class, whose
    exception is not caught. *)
Definition find_by_id (document_id : string) (db : database)
    : result (option document) :=
  match find_one document_id db with
  | None => Ok None
  | Some doc => let* model := model_class db doc in Ok (Some model)
  end.

(** [update_by_id]: the filter is [{"id": document_id}] and nothing else;
    [$set] writes every field of [update_data], after [updated_at] has been
    put into it. An absent document gives [None] and no write. The
    document written is handed to the model class after the write: when
    that raises, the write has been made. *)
Definition update_by_id (now : Z) (document_id : string)
    (update_data : document) (db : database)
    : result (option document) * database :=
  let update_data := <["updated_at" := VTime now]> update_data in
  match find_one_and_update document_id update_data (generations db) with
  | None => (Ok None, db)
  | Some (result, collection) =>
      (let* model := model_class db result in Ok (Some model),
       with_generations collection db)
  end.

(** [delete_by_id]: [True] when a document was deleted. *)
Definition delete_by_id (document_id : string) (db : database)
    : bool * database :=
  match delete_one document_id (generations db) with
  | Some collection => (true, with_generations collection db)
  | None => (false, db)
  end.

(** ** generation_repository.py *)

(** [update_status]: [kwargs] are merged over the status; [started_at] is
    written at every update to [PROCESSING]. For [COMPLETED] and [FAILED]
    without a [started_at] among the keyword arguments the record is first
    read through [find_by_id], whose exception leaves the function before
    anything is written. *)
Definition update_status (now : Z) (generation_id : string)
    (status : GenerationStatus) (kwargs : document) (db : database)
    : result (option document) * database :=
  let update_dict : document :=
    kwargs ∪ {["status" := VStr (value_of status)]} in
  match status with
  | PROCESSING =>
      update_by_id now generation_id
                   (<["started_at" := VTime now]> update_dict) db
  | COMPLETED | FAILED =>
      let update_dict := <["completed_at" := VTime now]> update_dict in
      match update_dict !! "started_at" with
      | Some _ => update_by_id now generation_id update_dict db
      | None =>
          match find_by_id generation_id db with
          | Raise e => (Raise e, db)
          | Ok existing =>
              let update_dict :=
                match existing ≫= (fun model => model !! "started_at") with
                | Some (VTime started) =>
                    <["processing_time_ms" := VElapsedMs started now]>
                      update_dict
                | _ => update_dict
                end in
              update_by_id now generation_id update_dict db
          end
      end
  | _ => update_by_id now generation_id update_dict db
  end.

(** ** user_repository.py *)

(** [deduct_credits]: [None] for an unknown user, [ValueError] when the
    balance is short, otherwise [$inc] of [credits_remaining] by
    [-credits] and [$set] of [updated_at]. *)
Definition deduct_credits (now : Z) (user_id : string) (credits : Z)
    (db : database) : result (option Z) * database :=
  match users db !! user_id with
  | None => (Ok None, db)
  | Some balance =>
      if balance <? credits
      then (Raise (Raised ValueError
                     ("Insufficient credits. Required: " ++ pretty credits ++
                      ", Available: " ++ pretty balance)%string),
            db)
      else (Ok (Some (balance - credits)),
            with_users_updated_at
              (<[user_id := now]> (users_updated_at db))
              (with_users (<[user_id := balance - credits]> (users db)) db))
  end.

(** [add_credits]: [$inc] by [credits] and [$set] of [updated_at]. *)
Definition add_credits (now : Z) (user_id : string) (credits : Z)
    (db : database) : option Z * database :=
  match users db !! user_id with
  | None => (None, db)
  | Some balance =>
      (Some (balance + credits),
       with_users_updated_at
         (<[user_id := now]> (users_updated_at db))
         (with_users (<[user_id := balance + credits]> (users db)) db))
  end.

(** [increment_generations]: of the fields kept here it writes
    [updated_at]. *)
Definition increment_generations (now : Z) (user_id : string)
    (db : database) : option Z * database :=
  match users db !! user_id with
  | None => (None, db)
  | Some balance =>
      (Some balance,
       with_users_updated_at (<[user_id := now]> (users_updated_at db)) db)
  end.

End mongodb.

(** * credit_service.py *)
Module credit_service.
Import mongodb.

(** The dictionary [deduct_credits] and [refund_credits] return;
    [credits_moved] is its ["credits_deducted"] or ["credits_refunded"]. *)
Record credit_reply : Type := mkReply {
  success : bool;
  reply_credits_remaining : Z;
  credits_moved : Z;
  is_unlimited : bool
}.

(** [self.subscription_repo.get_by_user_id(user_id)], the first statement
    of [check_credits], [deduct_credits] and [refund_credits].
    [SubscriptionRepository] defines [find_by_user] and inherits
    [find_by_id], [find_one] and the other methods of [BaseRepository];
    neither class has an attribute [get_by_user_id], so the lookup raises
    before any call is made. *)
Definition get_by_user_id (user_id : string) (db : database)
    : result (option Subscription) :=
  Raise (Raised AttributeError
           "'SubscriptionRepository' object has no attribute 'get_by_user_id'").

Definition subscription_not_found (user_id : string) : exn :=
  Raised ValueError ("Subscription not found for user: " ++ user_id).

(** [subscription.tier], the next attribute read: the class [Subscription]
    has a [plan] and no [tier], so there is no value to go on with. *)
Definition tier (subscription : Subscription) : result Empty_set :=
  Raise (Raised AttributeError "'Subscription' object has no attribute 'tier'").

(** [deduct_credits], down to the first use of the subscription. Nothing
    is written before it. *)
Definition deduct_credits (now : Z) (user_id : string) (credits : Z)
    (generation_id : option string) (meta : option (list (string * string)))
    (db : database) : result credit_reply * database :=
  match get_by_user_id user_id db with
  | Raise e => (Raise e, db)
  | Ok None => (Raise (subscription_not_found user_id), db)
  | Ok (Some subscription) =>
      match tier subscription with
      | Raise e => (Raise e, db)
      | Ok nothing => match nothing with end
      end
  end.

(** [refund_credits] begins with the same two statements. No parameter or
    stored field says whether the generation was refunded before. *)
Definition refund_credits (now : Z) (user_id : string) (credits : Z)
    (reason : string) (generation_id : option string)
    (db : database) : result credit_reply * database :=
  match get_by_user_id user_id db with
  | Raise e => (Raise e, db)
  | Ok None => (Raise (subscription_not_found user_id), db)
  | Ok (Some subscription) =>
      match tier subscription with
      | Raise e => (Raise e, db)
      | Ok nothing => match nothing with end
      end
  end.

(** The refunds logged for a generation: entries with [action="refund"],
    as [refund_credits] names them. *)
Definition refunds_of (generation_id : string) (db : database)
    : list UsageLog :=
  List.filter
    (fun l => String.eqb (action l) "refund" &&
              match log_generation_id l with
              | Some g => String.eqb g generation_id
              | None => false
              end)
    (usage_logs db).

End credit_service.

(** * replicate_service.py *)
Module replicate_service.

(** class GenerationStatus of the provider *)
Inductive GenerationStatus : Type :=
  | STARTING | PROCESSING | SUCCEEDED | FAILED | CANCELED.

Definition is_succeeded (s : GenerationStatus) : bool :=
  match s with SUCCEEDED => true | _ => false end.

(** A downloaded artifact: [(image_bytes, content_type)]. *)
Record image : Type := mkImage {
  image_bytes : string;
  content_type : string
}.

(** The dictionary a finished prediction comes back as. *)
Record prediction : Type := mkPrediction {
  status : GenerationStatus;
  output : list string;
  error : option string;
  predict_time : option Z
}.

(** [download_all_outputs]: every URL is fetched ([download_image] gives
    the artifact or raises, here [None]); failed downloads are dropped and
    the others kept in order. *)
Definition download_all_outputs (download_image : string -> option image)
    (output_urls : list string) : list image :=
  omap download_image output_urls.

End replicate_service.

(** * azure_blob_service.py *)
Module azure_blob_service.

(** The dictionary [upload_metadata] that [upload_image] builds. *)
Record upload_metadata : Type := mkUploadMetadata {
  size_bytes : Z;
  uploaded_content_type : string;
  uploaded_at : Z;
  has_thumbnail : bool
}.

(** What [upload_image] returns:
    the tuple [(blob_url, blob_path, upload_metadata)]. *)
Definition upload_result : Type := string * string * upload_metadata.

(** [result[key]] with a string key on that tuple: a tuple is indexed by
    integers and slices only. *)
Definition tuple_getitem {A : Type} (uploaded : upload_result) (key : string)
    : result A :=
  Raise (Raised TypeError "tuple indices must be integers or slices, not str").

(** [result.get(key)] on that tuple *)
Definition tuple_get {A : Type} (uploaded : upload_result) (key : string)
    : result A :=
  Raise (Raised AttributeError "'tuple' object has no attribute 'get'").

End azure_blob_service.

(** * worker_service.py *)
Module worker_service.
Import queue_service mongodb azure_blob_service.

(** What the outside world does while one delivery is handled. *)
Record surroundings : Type := mkSurroundings {
  at_parse : ambient;      (* clock and UUID read when the body is parsed *)
  started : Z;             (* the clock when the job starts *)
  finished : Z;            (* the clock when its pipeline has ended *)
  (* what the n-th call of [generate_and_wait] gives; the method is
     called by the worker and not defined in [replicate_service.py], so
     its result is taken as given *)
  generate_and_wait : nat -> result replicate_service.prediction;
  (* [str()] of the [RetryError] raised after the last attempt *)
  retry_error_text : string;
  download_image : string -> option replicate_service.image;
  (* [blob_service.upload_image] for a user, a generation, a file name and
     an artifact: the tuple it returns, or the exception it raises *)
  upload_image : string -> string -> string -> replicate_service.image ->
                 result upload_result;
  generate_sas_url : string -> result string;
  get_cdn_url : string -> string
}.

Definition max_retries : Z := 3.

(** [@retry(stop=stop_after_attempt(3))] without [reraise]: the call is
    tried up to three times and [RetryError] is raised after the last
    failure. *)
Fixpoint retrying {A : Type} (attempts : nat) (n : nat)
    (retry_error : string) (call : nat -> result A) : result A :=
  match attempts with
  | O => Raise (Raised RetryError retry_error)
  | S attempts' =>
      match call n with
      | Ok r => Ok r
      | Raise _ => retrying attempts' (S n) retry_error call
      end
  end.

Definition _call_replicate_api (s : surroundings)
    : result replicate_service.prediction :=
  retrying 3 0 (retry_error_text s) (generate_and_wait s).

(** [content_type.split("/")[-1]] *)
Fixpoint last_segment (s acc : string) : string :=
  match s with
  | EmptyString => acc
  | String c rest =>
      if Ascii.eqb c "/"%char then last_segment rest EmptyString
      else last_segment rest (acc ++ String c EmptyString)
  end.

(** The body of the [try] in the loop of [_upload_images], for the
    artifact at index [idx]; [uploaded] is the variable [result] of the
    source. [upload_image] returns a tuple, and the next statement
    subscripts it with ["blob_path"]. *)
Definition upload_one (s : surroundings) (generation_id user_id : string)
    (idx : nat) (img : replicate_service.image) : result blob_record :=
  let extension := last_segment (replicate_service.content_type img) "" in
  let filename := ("output_" ++ pretty idx ++ "." ++ extension)%string in
  let* uploaded := upload_image s user_id generation_id filename img in
  let* path := tuple_getitem (A := string) uploaded "blob_path" in
  let* blob_url := generate_sas_url s path in
  let* thumbnail_path :=
    tuple_get (A := option string) uploaded "thumbnail_path" in
  let* thumbnail_url :=
    match thumbnail_path with
    | Some p => let* url := generate_sas_url s p in Ok (Some url)
    | None => Ok None
    end in
  let* size := tuple_getitem (A := Z) uploaded "file_size" in
  let* dims := tuple_get (A := option (Z * Z)) uploaded "dimensions" in
  Ok {| blob_url := blob_url;
        thumbnail_url := thumbnail_url;
        cdn_url := get_cdn_url s path;
        cdn_thumbnail_url := get_cdn_url s <$> thumbnail_path;
        blob_path := path;
        file_size := size;
        dimensions := dims |}.

(** The loop of [_upload_images] from index [idx] on: an artifact for
    which the body raises is skipped. *)
Fixpoint upload_from (s : surroundings) (generation_id user_id : string)
    (idx : nat) (images : list replicate_service.image) : list blob_record :=
  match images with
  | [] => []
  | img :: rest =>
      match upload_one s generation_id user_id idx img with
      | Ok r => r :: upload_from s generation_id user_id (S idx) rest
      | Raise _ => upload_from s generation_id user_id (S idx) rest
      end
  end.

Definition _upload_images (s : surroundings) (generation_id user_id : string)
    (images : list replicate_service.image) : result (list blob_record) :=
  match upload_from s generation_id user_id 0 images with
  | [] => Raise (Raised Exception
                        "Failed to upload any images to blob storage")
  | blob_urls => Ok blob_urls
  end.

(** [_update_status]: the write goes through [update_by_id]; nothing is
    read of the stored document before it, and an exception of
    [update_by_id] is logged and dropped. *)
Definition _update_status (now : Z) (generation_id : string)
    (status : mongodb.GenerationStatus)
    (additional_data : document) (db : database) : database :=
  let update_data :=
    additional_data ∪
      ({["status" := VStr (value_of status); "updated_at" := VTime now]}
         : document) in
  snd (update_by_id now generation_id update_data db).

Definition opt_str (o : option string) : value :=
  match o with Some s => VStr s | None => VNone end.

(** [_update_completion]: an exception of [update_by_id] is logged and
    raised again. *)
Definition _update_completion (now : Z) (generation_id : string)
    (blob_urls : list blob_record) (predict_time : option Z)
    (db : database) : result unit * database :=
  let primary := head blob_urls in
  let field (f : blob_record -> value) : value :=
    match primary with Some r => f r | None => VNone end in
  let update_data : document :=
    {[ "status" := VStr (value_of COMPLETED);
       "image_url" := field (fun r => VStr (blob_url r));
       "thumbnail_url" := field (fun r => opt_str (thumbnail_url r));
       "cdn_url" := field (fun r => VStr (cdn_url r));
       "cdn_thumbnail_url" := field (fun r => opt_str (cdn_thumbnail_url r));
       "blob_path" := field (fun r => VStr (blob_path r));
       "file_size" := field (fun r => VInt (file_size r));
       "dimensions" :=
         field (fun r => match dimensions r with
                         | Some d => VDimensions d
                         | None => VNone
                         end);
       "all_outputs" := VOutputs blob_urls;
       "completed_at" := VTime now;
       "processing_time_ms" :=
         match predict_time with
         | Some t => if t =? 0 then VNone else VInt (t * 1000)
         | None => VNone
         end;
       "metadata" := VMetadata predict_time (length blob_urls) ]} in
  match update_by_id now generation_id update_data db with
  | (Ok _, db') => (Ok tt, db')
  | (Raise e, db') => (Raise e, db')
  end.

(** [_handle_job_failure]: the record is marked failed; both branches of
    the retry test return [False]. No repository other than the
    generations one is called. *)
Definition _handle_job_failure (now : Z) (job_message : GenerationJobMessage)
    (raw_message : ServiceBusMessage) (error : exn) (db : database)
    : bool * database :=
  let generation_id := generation_id job_message in
  let attempt := attempt job_message in
  let db :=
    _update_status now generation_id mongodb.FAILED
      {[ "error_message" := VStr (str_exn error);
         "failed_at" := VTime now;
         "attempts" := VInt attempt ]} db in
  if attempt <? max_retries
  then (false, db)     (* abandon: the broker re-delivers *)
  else (false, db).    (* the broker is left to dead-letter *)

(** Steps 2 to 5 of [process_generation_job], inside its [try]. The
    webhook notification of step 6 catches its own errors and writes
    nothing, so it is left out. *)
Definition run_pipeline (s : surroundings) (job_message : GenerationJobMessage)
    (db : database) : result unit * database :=
  match _call_replicate_api s with
  | Raise e => (Raise e, db)
  | Ok prediction_result =>
      if negb (replicate_service.is_succeeded
                 (replicate_service.status prediction_result))
      then (Raise (Raised Exception
                     ("Generation failed: " ++
                      default "Unknown error"
                              (replicate_service.error prediction_result))),
            db)
      else
        match replicate_service.output prediction_result with
        | [] => (Raise (Raised Exception "No output images generated"), db)
        | output_urls =>
            match replicate_service.download_all_outputs (download_image s)
                    output_urls with
            | [] => (Raise (Raised Exception
                              "Failed to download generated images"),
                     db)
            | images =>
                match _upload_images s (generation_id job_message)
                                     (user_id job_message) images with
                | Raise e => (Raise e, db)
                | Ok blob_urls =>
                    _update_completion (finished s)
                      (generation_id job_message) blob_urls
                      (replicate_service.predict_time prediction_result) db
                end
            end
        end
  end.

(** [process_generation_job]: every exception of the pipeline goes to
    [_handle_job_failure], whatever its class. It has the type of a
    processor callback of [receive_messages]. *)
Definition process_generation_job (s : surroundings)
    (job_message : GenerationJobMessage) (raw_message : ServiceBusMessage)
    (db : database) : result bool * database :=
  let db :=
    _update_status (started s) (generation_id job_message) mongodb.PROCESSING
      {[ "started_at" := VTime (started s) ]} db in
  match run_pipeline s job_message db with
  | (Ok _, db') => (Ok true, db')
  | (Raise e, db') =>
      let '(success, db'') :=
        _handle_job_failure (finished s) job_message raw_message e db' in
      (Ok success, db'')
  end.

(** One delivery handled by [_worker_loop]: [receive_messages] with the
    job processor as callback. *)
Definition deliver (s : surroundings) (message : ServiceBusMessage)
    (st : loop_state (W := database)) : loop_state (W := database) :=
  receive_one at_parse 1 (Some process_generation_job) (s, message) st.

(** A field of a stored generation document, and its status. *)
Definition field_of (key generation_id : string) (db : database)
    : option value :=
  find_one generation_id db ≫= (fun doc => doc !! key).

Definition status_of (generation_id : string) (db : database)
    : option value :=
  field_of "status" generation_id db.

(** ** class WorkerMetrics *)

Section metrics.
(** Processing times are floating-point seconds; they are only added up,
    so the type and its addition are left open. *)
Context {T : Type}.
Variable plus : T -> T -> T.
(** [(datetime.utcnow() - start_time).total_seconds()] of a job *)
Variable elapsed : surroundings -> T.

Record WorkerMetrics : Type := mkMetrics {
  jobs_processed : Z;
  jobs_succeeded : Z;
  jobs_failed : Z;
  total_processing_time : T;
  start_time : Z
}.

(** [__init__] *)
Definition new_metrics (zero : T) (now : Z) : WorkerMetrics :=
  mkMetrics 0 0 0 zero now.

Definition record_success (processing_time : T) (m : WorkerMetrics)
    : WorkerMetrics :=
  mkMetrics (jobs_processed m + 1) (jobs_succeeded m + 1) (jobs_failed m)
            (plus (total_processing_time m) processing_time) (start_time m).

Definition record_failure (processing_time : T) (m : WorkerMetrics)
    : WorkerMetrics :=
  mkMetrics (jobs_processed m + 1) (jobs_succeeded m) (jobs_failed m + 1)
            (plus (total_processing_time m) processing_time) (start_time m).

(** [process_generation_job] with the bookkeeping it does on
    [self.metrics]: [record_success] before [return True],
    [record_failure] in the [except] branch. *)
Definition process_and_record (s : surroundings)
    (job_message : GenerationJobMessage) (raw_message : ServiceBusMessage)
    (w : database * WorkerMetrics) : result bool * (database * WorkerMetrics) :=
  let '(outcome, db') :=
    process_generation_job s job_message raw_message (fst w) in
  (outcome,
   (db',
    match outcome with
    | Ok true => record_success (elapsed s) (snd w)
    | _ => record_failure (elapsed s) (snd w)
    end)).
End metrics.

End worker_service.

(** * api/v1/endpoints/generate.py: the submission path *)
Module generate.
Import queue_service mongodb.

(** [GenerationRequest] after validation. *)
Record GenerationRequest : Type := mkRequest {
  request_prompt : string;
  request_model : string;
  request_settings : option (gmap string json);
  request_callback_url : option string
}.

(** [current_user], as the authentication dependency loaded it. *)
Record User : Type := mkUser {
  user_id : string;
  user_credits_remaining : Z
}.

(** The document [create_generation] writes. *)
Record generation_data : Type := mkGenerationData {
  data_id : string;
  data_user_id : string;
  data_type : string;
  data_status : GenerationStatus;
  data_prompt : string;
  data_model : string;
  data_settings : gmap string json;
  data_credits_used : Z;
  data_created_at : Z;
  data_updated_at : Z
}.

(** What the endpoint works on: the accounts, the generation documents it
    has created (by id) and the queue. *)
Record site : Type := mkSite {
  accounts : database;
  records : gmap string generation_data;
  bus : queues
}.

Inductive response : Type :=
  | Accepted (generation_id : string) (estimated_time_seconds : Z)
             (credits_deducted : Z)
  | HTTPException (status_code : Z) (detail : string).

Definition _estimate_processing_time (model : string) : Z :=
  if String.eqb model "flux-schnell" then 15
  else if String.eqb model "flux-dev" then 30
  else if String.eqb model "flux-pro" then 60
  else if String.eqb model "sdxl" then 45
  else if String.eqb model "sd-3" then 45
  else 30.

(** [create_generation]. [TEXT_TO_IMAGE] is the value of
    [GenerationType.TEXT_TO_IMAGE], an enumeration the models do not
    define; [credits_required] is what [_calculate_credits_required] gives
    for the request; [e] is the clock and UUID read for the record,
    [deducted_at] the clock read by [deduct_credits] and [settled_at] the
    clock read by [add_credits] or [increment_generations]. *)
Definition create_generation (TEXT_TO_IMAGE : string) (e : ambient)
    (deducted_at settled_at : Z)
    (ambient_at : nat -> ambient) (transport_at : nat -> transport)
    (credits_required : Z) (request : GenerationRequest)
    (current_user : User) (s : site) : response * site :=
  if user_credits_remaining current_user <? credits_required then
    (HTTPException 402
       ("Insufficient credits. Required: " ++ pretty credits_required ++
        ", Available: " ++
        pretty (user_credits_remaining current_user))%string,
     s)
  else
    match deduct_credits deducted_at (user_id current_user) credits_required
            (accounts s) with
    | (Raise _, accounts1) =>
        (HTTPException 500 "Failed to create generation request",
         mkSite accounts1 (records s) (bus s))
    | (Ok None, accounts1) =>
        (HTTPException 500 "Failed to deduct credits",
         mkSite accounts1 (records s) (bus s))
    | (Ok (Some _), accounts1) =>
        let generation_id := uuid4 e in
        let generation_data :=
          {| data_id := generation_id;
             data_user_id := user_id current_user;
             data_type := TEXT_TO_IMAGE;
             data_status := PENDING;
             data_prompt := request_prompt request;
             data_model := request_model request;
             data_settings := default ∅ (request_settings request);
             data_credits_used := credits_required;
             data_created_at := utcnow e;
             data_updated_at := utcnow e |} in
        let records1 := <[generation_id := generation_data]> (records s) in
        match send_retrying 3 0 ambient_at transport_at
                generation_id (user_id current_user)
                (request_prompt request) (request_model request)
                TEXT_TO_IMAGE (request_settings request)
                (request_callback_url request) "normal" None (bus s) with
        | (Raise _, bus1) =>
            (HTTPException 500 "Failed to create generation request",
             mkSite accounts1 records1 bus1)
        | (Ok false, bus1) =>
            (* Refund credits if queue failed *)
            let accounts2 :=
              snd (add_credits settled_at (user_id current_user)
                               credits_required accounts1) in
            (HTTPException 500 "Failed to queue generation request",
             mkSite accounts2 records1 bus1)
        | (Ok true, bus1) =>
            let accounts2 :=
              snd (increment_generations settled_at (user_id current_user)
                                         accounts1) in
            (Accepted generation_id
                      (_estimate_processing_time (request_model request))
                      credits_required,
             mkSite accounts2 records1 bus1)
        end
    end.

End generate.

(** * Concrete inputs used by the examples below *)
Module samples.
Import queue_service mongodb azure_blob_service.

Definition job1 : GenerationJobMessage :=
  mkJob "gen-1" "user-1" "text_to_image" "a red fox" "flux-schnell"
        {[ "width" := JInt 512 ]} None "normal" 1 1000 "msg-1".

Definition job2 : GenerationJobMessage :=
  mkJob "gen-2" "user-1" "text_to_image" "a blue heron" "flux-dev"
        ∅ None "normal" 1 1200 "msg-4".

(** A job on its third attempt. *)
Definition job3 : GenerationJobMessage :=
  mkJob "gen-1" "user-1" "text_to_image" "a red fox" "flux-schnell"
        {[ "width" := JInt 512 ]} (Some "https://hook.example/cb") "high" 3
        1000 "msg-1".

(** The clock and UUID at later moments. *)
Definition later : ambient := Ambient 2000 "msg-2".
Definition later_still : ambient := Ambient 3000 "msg-3".
Definition stamps (n : nat) : ambient := Ambient 2000 "msg-5".

Definition message_of (m : GenerationJobMessage) : ServiceBusMessage :=
  mkMessage (to_json m) (message_id m) [] None.

Definition garbled : ServiceBusMessage :=
  mkMessage
    (Malformed "{not json"
       "Expecting property name enclosed in double quotes: line 1 column 2 (char 1)")
    "msg-7" [] None.

(** A body that is a JSON object without the [user_id] key. *)
Definition no_user : ServiceBusMessage :=
  mkMessage
    (Object (mkWire (Some "msg-8") (Some "gen-8") None None (Some "p")
                    (Some "m") None None None (Some 5) None))
    "msg-8" [] None.

Definition dead_queue : queues := mkQueues [] [message_of job3].

(** A sender that raises [ServiceBusError] once and then delivers. *)
Definition second_try (n : nat) : transport :=
  match n with O => BusFailure "busy" | _ => Delivered end.

(** A processor callback that loses the lock of the message. *)
Definition lock_losing_callback
    : processor_callback (W := unit) (E := ambient) :=
  fun _ _ _ w => (Raise MessageLockLostError, w).

(** A processor callback that raises another exception. *)
Definition crashing_callback
    : processor_callback (W := unit) (E := ambient) :=
  fun _ _ _ w => (Raise (Raised RuntimeError "boom"), w).

(** A callback that processes every job with success. *)
Definition accepting_callback
    : processor_callback (W := unit) (E := ambient) :=
  fun _ _ _ w => (Ok true, w).

Definition fresh_loop : loop_state (W := unit) := mkLoop [] [] tt false.

(** The surroundings of a delivery when only the clock and UUID matter. *)
Definition as_read (e : ambient) : ambient := e.

(** A batch takes at most two messages. *)
Definition two_at_most (batch : list ServiceBusMessage)
    (message : ServiceBusMessage) : bool :=
  (length batch <? 2)%nat.

Definition always_delivered (batch : list ServiceBusMessage) : transport :=
  Delivered.

Definition too_large : exn :=
  Raised MessageSizeExceededError "ServiceBusMessageBatch has reached its size limit".

(** A model class for the examples: what [Generation] makes of the
    documents used below. A document needs a string [id], a string
    [user_id] and a [prompt] of 1 to 2000 characters, and its [status], if
    any, is one of the five status strings; the model carries the fields
    of the document. *)
Definition sample_model_class (doc : document) : result document :=
  let invalid := Raise (Raised ValidationError "validation error for Generation") in
  match doc !! "id", doc !! "user_id", doc !! "prompt" with
  | Some (VStr _), Some (VStr _), Some (VStr p) =>
      if ((1 <=? String.length p) && (String.length p <=? 2000))%nat then
        match doc !! "status" with
        | None => Ok doc
        | Some (VStr st) =>
            if existsb (String.eqb st)
                 (map value_of [PENDING; PROCESSING; COMPLETED; FAILED;
                                CANCELLED])
            then Ok doc else invalid
        | Some _ => invalid
        end
      else invalid
  | _, _, _ => invalid
  end.

(** A subscriber on the basic plan. *)
Definition alice : Subscription :=
  mkSubscription "sub-1" "user-1" "basic" 200 195 900.

Definition bank : database :=
  mkDatabase [] sample_model_class {[ "user-1" := 8 ]} {[ "user-1" := 900 ]}
             {[ "user-1" := alice ]} [].

(** The generation record of [job1], as the submission path creates it,
    with 2 credits charged. *)
Definition pending_doc : document :=
  {[ "id" := VStr "gen-1"; "user_id" := VStr "user-1";
     "prompt" := VStr "a red fox";
     "status" := VStr "pending"; "credits_used" := VInt 2;
     "created_at" := VTime 1000; "updated_at" := VTime 1000 ]}.

Definition stored : blob_record :=
  mkBlob "https://blob/out0" None "https://cdn/out0" None
         "user-1/gen-1/output_0.png" 2048 (Some (1024, 1024)).

(** The same record with the results of a completed run. *)
Definition completed_doc : document :=
  {[ "id" := VStr "gen-1"; "user_id" := VStr "user-1";
     "prompt" := VStr "a red fox";
     "status" := VStr "completed"; "credits_used" := VInt 2;
     "created_at" := VTime 1000; "updated_at" := VTime 1500;
     "started_at" := VTime 1100; "completed_at" := VTime 1500;
     "image_url" := VStr "https://blob/out0";
     "all_outputs" := VOutputs [stored] ]}.

(** The same record in the middle of a first attempt begun at 1100. *)
Definition processing_doc : document :=
  {[ "id" := VStr "gen-1"; "user_id" := VStr "user-1";
     "prompt" := VStr "a red fox";
     "status" := VStr "processing"; "credits_used" := VInt 2;
     "created_at" := VTime 1000; "updated_at" := VTime 1100;
     "started_at" := VTime 1100 ]}.

(** A record that the model class refuses: it has no [prompt]. *)
Definition promptless_doc : document :=
  {[ "id" := VStr "gen-1"; "user_id" := VStr "user-1";
     "status" := VStr "processing"; "started_at" := VTime 1100 ]}.

(** The record of another generation. *)
Definition other_doc : document :=
  {[ "id" := VStr "gen-2"; "user_id" := VStr "user-1";
     "prompt" := VStr "a blue heron";
     "status" := VStr "pending"; "created_at" := VTime 1200;
     "updated_at" := VTime 1200 ]}.

Definition shop (doc : document) : database :=
  mkDatabase [doc; other_doc] sample_model_class {[ "user-1" := 8 ]}
             {[ "user-1" := 900 ]} {[ "user-1" := alice ]} [].

Definition png : replicate_service.image :=
  replicate_service.mkImage "PNG-bytes" "image/png".

(** A blob store in which every upload goes through: [upload_image]
    returns its tuple. *)
Definition every_upload (user_id generation_id filename : string)
    (img : replicate_service.image) : result upload_result :=
  Ok (("https://blob/" ++ filename)%string,
      (user_id ++ "/" ++ generation_id ++ "/" ++ filename)%string,
      mkUploadMetadata 2048 (replicate_service.content_type img) 8000 true).

(** A blob store in which every upload raises. *)
Definition no_upload (user_id generation_id filename : string)
    (img : replicate_service.image) : result upload_result :=
  Raise (Raised HTTPError "upload refused").

Definition sas (blob_path : string) : result string :=
  Ok ("https://blob/" ++ blob_path ++ "?sig=1")%string.

Definition cdn (blob_path : string) : string :=
  ("https://cdn/" ++ blob_path)%string.

(** A delivery during which the provider answers every call with a
    rate-limit error. *)
Definition rate_limited : worker_service.surroundings :=
  worker_service.mkSurroundings later 5000 9000
    (fun _ => Raise (Raised ReplicateRateLimitError "rate limit exceeded"))
    "RetryError[<Future at 0x7f3a5c1d2e90 state=finished raised ReplicateRateLimitError>]"
    (fun _ => None) every_upload sas cdn.

Definition two_outputs : replicate_service.prediction :=
  replicate_service.mkPrediction replicate_service.SUCCEEDED
    ["https://out/a"; "https://out/b"] None (Some 4).

(** Synthesis gives two outputs; the first download fails, the second
    artifact is fetched, and the blob store takes every upload. *)
Definition one_of_two : worker_service.surroundings :=
  worker_service.mkSurroundings later 5000 9000
    (fun _ => Ok two_outputs)
    "RetryError[<Future at 0x7f3a5c1d2e90 state=finished raised Exception>]"
    (fun url => if String.eqb url "https://out/b" then Some png else None)
    every_upload sas cdn.

(** Synthesis gives two outputs, both fetched, and every upload raises. *)
Definition uploads_fail : worker_service.surroundings :=
  worker_service.mkSurroundings later 5000 9000
    (fun _ => Ok two_outputs)
    "RetryError[<Future at 0x7f3a5c1d2e90 state=finished raised Exception>]"
    (fun _ => Some png)
    no_upload sas cdn.

Definition worker_loop (db : database) : loop_state (W := database) :=
  mkLoop [] [] db false.

Definition fox_request : generate.GenerationRequest :=
  generate.mkRequest "a red fox" "flux-schnell" None None.

Definition user1 : generate.User := generate.mkUser "user-1" 8.

Definition front : generate.site :=
  generate.mkSite bank ∅ (mkQueues [] []).

End samples.

(** * Properties *)

Section job_message.
Import queue_service samples.

Lemma from_json_to_json (e : ambient) (m : GenerationJobMessage) :
  from_json e (to_json m) = from_dict e (to_dict m).
Proof. reflexivity. Qed.

(** C9, as stated, fails: the message read back from the wire form of
    [job1] is not [job1]; its [message_id] and [created_at] are new. *)
Lemma roundtrip_changes_identity :
  from_json later (to_json job1) <> Ok job1 /\
  (message_id <$> (match from_dict later (to_dict job1) with
                   | Ok m => Some m | Raise _ => None end)) = Some "msg-2" /\
  message_id job1 = "msg-1".
Proof.
  split; [| split; reflexivity].
  intros H. cbv [from_json to_json json_dumps json_loads bind to_dict
                 from_dict subscript init later job1] in H.
  simpl in H. injection H as Hc _. discriminate Hc.
Qed.

(** C9, amended: reading back the wire form of a job message, through
    [from_json]/[to_json] as through [from_dict]/[to_dict], always succeeds
    and keeps [generation_id], [user_id], [job_type], [prompt], [model],
    [settings], [callback_url], [priority] and [attempt]; [created_at] and
    [message_id] are those read from the clock and [uuid4()] at the time
    of reading, not those of the message. *)
Theorem roundtrip_keeps_payload (e : ambient) (m : GenerationJobMessage) :
  from_json e (to_json m) = from_dict e (to_dict m) /\
  from_dict e (to_dict m) =
    Ok (mkJob (generation_id m) (user_id m) (job_type m) (prompt m) (model m)
              (settings m) (callback_url m) (priority m) (attempt m)
              (utcnow e) (uuid4 e)).
Proof. split; reflexivity. Qed.

End job_message.

Section sending.
Import queue_service samples.

(** The message [send_generation_request] puts on the queue. *)
Lemma send_generation_request_delivered e gid uid p mdl jt st cb pr sch q :
  send_generation_request e Delivered gid uid p mdl jt st cb pr sch q =
    (Ok true,
     mkQueues
       (main_queue q ++
          [mkMessage (to_json (init e gid uid p mdl jt st cb pr 1))
                     (uuid4 e)
                     [("generation_id", gid); ("user_id", uid);
                      ("priority", pr); ("job_type", jt)]
                     sch])
       (deadletter q)).
Proof. reflexivity. Qed.

(** Under the decorator, the runs that raise [ServiceBusError] leave the
    queue as it is, and the first run that does not raise, if it is one of
    the three, decides the outcome. *)
Lemma send_retrying_first_settled (attempts n k : nat)
    (ambient_at : nat -> ambient) (transport_at : nat -> transport)
    gid uid p mdl jt st cb pr sch q :
  (k < attempts)%nat ->
  (forall i, (i < k)%nat ->
     exists why, transport_at (n + i)%nat = BusFailure why) ->
  (forall why, transport_at (n + k)%nat <> BusFailure why) ->
  send_retrying attempts n ambient_at transport_at gid uid p mdl jt st cb pr
                sch q
    = send_generation_request (ambient_at (n + k)%nat)
        (transport_at (n + k)%nat) gid uid p mdl jt st cb pr sch q.
Proof.
  revert attempts n. induction k as [| k IH]; intros attempts n Hk Hbefore Hat.
  - destruct attempts as [| a]; [lia |]. cbn [send_retrying].
    rewrite Nat.add_0_r in *.
    destruct (transport_at n) as [| why |]; cbn; try reflexivity.
    now destruct (Hat why).
  - destruct attempts as [| a]; [lia |]. cbn [send_retrying].
    destruct (Hbefore 0%nat ltac:(lia)) as [why Hfirst].
    rewrite Nat.add_0_r in Hfirst. rewrite Hfirst.
    cbn [send_generation_request].
    replace (n + S k)%nat with (S n + k)%nat in * by lia.
    apply IH; [lia | | exact Hat].
    intros i Hi. replace (S n + i)%nat with (n + S i)%nat by lia.
    apply Hbefore. lia.
Qed.

Lemma send_retrying_all_raise (attempts n : nat)
    (ambient_at : nat -> ambient) (transport_at : nat -> transport)
    gid uid p mdl jt st cb pr sch q :
  (forall i, exists why, transport_at i = BusFailure why) ->
  send_retrying attempts n ambient_at transport_at gid uid p mdl jt st cb pr
                sch q
    = (Raise (Raised RetryError "RetryError"), q).
Proof.
  intros Hall. revert n. induction attempts as [| k IH]; intros n; cbn.
  - reflexivity.
  - destruct (Hall n) as [why ->]. apply IH.
Qed.


End sending.

Section dead_letter_resubmission.
Import queue_service samples.

(** C6: the code increments [attempt] on the parsed message and then
    calls [send_generation_request], which takes no [attempt]: whenever a
    dead-lettered message is found, parsed and sent again (at the first
    run of the send or after runs that raised [ServiceBusError]), the
    message put on the main queue parses to a job with [attempt] 1, a
    [message_id] drawn anew and the other eight fields of the
    dead-lettered job. The dead-lettered message is then completed and
    [True] returned; when that completion raises, [False] is returned and
    the dead-lettered message stays, beside the message sent. *)
Theorem resubmitted_attempt_is_one
    (e_parse after : ambient) (ambient_at : nat -> ambient)
    (transport_at : nat -> transport) (k : nat) (completion : option exn)
    (mid : string) (q : queues)
    (message : ServiceBusMessage) (parsed : GenerationJobMessage) :
  List.find (fun m => String.eqb (sb_message_id m) mid) (deadletter q)
    = Some message ->
  from_json e_parse (sb_body message) = Ok parsed ->
  (k < 3)%nat ->
  (forall i, (i < k)%nat -> exists why, transport_at i = BusFailure why) ->
  transport_at k = Delivered ->
  exists new,
    resubmit_dead_letter_message e_parse ambient_at transport_at completion
                                 mid q =
      (match completion with None => true | Some _ => false end,
       mkQueues (main_queue q ++ [new])
                (match completion with
                 | None => complete_message (sb_message_id message)
                                            (deadletter q)
                 | Some _ => deadletter q
                 end)) /\
    sb_message_id new = uuid4 (ambient_at k) /\
    from_json after (sb_body new) =
      Ok (mkJob (generation_id parsed) (user_id parsed) (job_type parsed)
                (prompt parsed) (model parsed) (settings parsed)
                (callback_url parsed) (priority parsed)
                1
                (utcnow after) (uuid4 after)).
Proof.
  intros Hfind Hparse Hk Hbefore Hat.
  unfold resubmit_dead_letter_message. rewrite Hfind, Hparse.
  cbn [generation_id user_id job_type prompt model settings callback_url
       priority].
  rewrite (send_retrying_first_settled 3 0 k); cbn [Nat.add];
    [| exact Hk | exact Hbefore | rewrite Hat; discriminate].
  rewrite Hat, send_generation_request_delivered.
  eexists. split; [destruct completion; reflexivity |].
  split; reflexivity.
Qed.

(** The dead-lettered third attempt of [job3] comes back with [attempt] 1,
    where the resubmission was to carry 3 + 1; here the send goes through
    at its second run. *)
Lemma resubmitted_attempt_is_one_witness :
  attempt job3 = 3 /\
  exists new,
    main_queue (snd (resubmit_dead_letter_message later stamps second_try
                       None "msg-1" dead_queue)) = [new] /\
    (attempt <$> (match from_json later_still (sb_body new) with
                  | Ok m => Some m | Raise _ => None end)) = Some 1.
Proof.
  split; [reflexivity |].
  destruct (resubmitted_attempt_is_one later later_still stamps second_try
              1%nat None "msg-1" dead_queue (message_of job3)
              (mkJob "gen-1" "user-1" "text_to_image" "a red fox"
                     "flux-schnell" {[ "width" := JInt 512 ]}
                     (Some "https://hook.example/cb") "high" 3
                     2000 "msg-2")
              eq_refl eq_refl) as (new & Hq & _ & Hnew).
  - lia.
  - intros i Hi. exists "busy". destruct i; [reflexivity | lia].
  - reflexivity.
  - exists new. rewrite Hq, Hnew. split; reflexivity.
Defined.

End dead_letter_resubmission.

Section receive_loop_errors.
Import queue_service samples.
Context {W E : Type}.
Variable ambient_of : E -> ambient.

(** Parsing a body never raises [MessageLockLostError]. *)
Lemma from_json_raises (e : ambient) (b : body) (ex : exn) :
  from_json e b = Raise ex -> exists cls msg, ex = Raised cls msg.
Proof.
  destruct b as [text why | d]; cbn.
  - intros [= <-]. eauto.
  - unfold from_dict, subscript, bind.
    destruct (w_generation_id d), (w_user_id d), (w_prompt d), (w_model d);
      intros [= <-]; eauto.
Qed.

(** C10, amended: a message whose body does not parse (whether not JSON or
    lacking a required key), or whose processing callback raises an
    exception derived from [Exception] other than [MessageLockLostError],
    gets exactly one settlement, [dead_letter_message] with reason
    ["ProcessingError"] and the text of the exception; it is neither
    completed nor abandoned, whatever its attempt counter.
    ([MessageLockLostError] has an [except] clause of its own, which only
    logs.) *)
Theorem unprocessable_is_dead_lettered
    (max_messages : Z) (cb : option (processor_callback (W := W) (E := E)))
    (env : E) (message : ServiceBusMessage)
    (st : loop_state (W := W)) (cls : exception_class) (msg : string) :
  (from_json (ambient_of env) (sb_body message) = Raise (Raised cls msg) \/
   exists job callback w',
     from_json (ambient_of env) (sb_body message) = Ok job /\
     cb = Some callback /\
     callback env job message (callback_state st)
       = (Raise (Raised cls msg), w')) ->
  settled (receive_one ambient_of max_messages cb (env, message) st) =
    settled st ++
      [(sb_message_id message, DeadLetter "ProcessingError" msg)].
Proof.
  intros [Hparse | (job & callback & w' & Hparse & -> & Hcb)];
    unfold receive_one; rewrite Hparse.
  - reflexivity.
  - rewrite Hcb. reflexivity.
Qed.

End receive_loop_errors.

Section receive_loop_examples.
Import queue_service samples.

(** Both kinds of body that do not parse, and a crashing callback, at
    attempt counters 5 and 3. *)
Lemma unprocessable_is_dead_lettered_witness :
  settled (receive_one as_read 1 (Some crashing_callback) (later, garbled)
                       fresh_loop)
    = [("msg-7",
        DeadLetter "ProcessingError"
          "Expecting property name enclosed in double quotes: line 1 column 2 (char 1)")] /\
  settled (receive_one as_read 1 None (later, no_user) fresh_loop)
    = [("msg-8", DeadLetter "ProcessingError" "'user_id'")] /\
  settled (receive_one as_read 1 (Some crashing_callback)
                       (later, message_of job3) fresh_loop)
    = [("msg-1", DeadLetter "ProcessingError" "boom")].
Proof.
  split; [| split].
  - apply (unprocessable_is_dead_lettered as_read 1 (Some crashing_callback)
             later garbled fresh_loop JSONDecodeError
             "Expecting property name enclosed in double quotes: line 1 column 2 (char 1)").
    left. reflexivity.
  - apply (unprocessable_is_dead_lettered as_read 1 None
             later no_user fresh_loop KeyError "'user_id'").
    left. reflexivity.
  - apply (unprocessable_is_dead_lettered as_read 1 (Some crashing_callback)
             later (message_of job3) fresh_loop RuntimeError "boom").
    right. eexists _, crashing_callback, tt.
    split; [reflexivity |]. split; reflexivity.
Defined.

(** C10, as stated, fails: a callback that raises [MessageLockLostError]
    leaves the message without any settlement; it is not dead-lettered. *)
Lemma lock_lost_is_not_dead_lettered :
  lock_losing_callback later job3 (message_of job3) tt
    = (Raise MessageLockLostError, tt) /\
  settled (receive_one as_read 1 (Some lock_losing_callback)
                       (later, message_of job3) fresh_loop) = [].
Proof. split; reflexivity. Qed.

End receive_loop_examples.

(** * Further properties of the queue gateway *)

Section wire_format.
Import queue_service samples.

(** [from_dict] succeeds exactly when the four required keys are present,
    and when it fails the exception is a [KeyError]. *)
Theorem from_dict_required_keys (e : ambient) (d : wire_dict) :
  (is_ok (from_dict e d) = true <->
     is_Some (w_generation_id d) /\ is_Some (w_user_id d) /\
     is_Some (w_prompt d) /\ is_Some (w_model d)) /\
  (forall ex, from_dict e d = Raise ex ->
     exists key, ex = Raised KeyError key /\
       In key ["'generation_id'"; "'user_id'"; "'prompt'"; "'model'"]).
Proof.
  unfold from_dict, subscript, bind. split.
  - destruct (w_generation_id d), (w_user_id d), (w_prompt d), (w_model d);
      cbn; split; intros H; try discriminate H; try reflexivity;
      try (repeat split; eauto; fail);
      destruct H as ([? H1] & [? H2] & [? H3] & [? H4]); congruence.
  - intros ex.
    destruct (w_generation_id d), (w_user_id d), (w_prompt d), (w_model d);
      cbn; intros H; try discriminate H; injection H as <-;
      eexists; (split; [reflexivity | cbn; tauto]).
Qed.

(** A request handed to [send_generation_request] and delivered adds one
    message at the end of the queue; its broker identifier is the
    [message_id] written in its body, and whoever reads the body gets the
    submitted fields with [attempt] 1 and an absent [settings] turned into
    the empty dictionary. A request that is not delivered leaves the queues
    as they were. *)
Theorem sent_request_is_received (e reader : ambient) (t : transport)
    (gid uid p mdl jt : string) (st : option (gmap string json))
    (cb : option string) (pr : string) (sch : option Z) (q : queues) :
  let q' := snd (send_generation_request e t gid uid p mdl jt st cb pr sch q) in
  match t with
  | Delivered =>
      exists message d,
        q' = mkQueues (main_queue q ++ [message]) (deadletter q) /\
        sb_body message = Object d /\
        w_message_id d = Some (sb_message_id message) /\
        from_json reader (sb_body message) =
          Ok (mkJob gid uid jt p mdl (default ∅ st) cb pr 1
                    (utcnow reader) (uuid4 reader))
  | _ => q' = q
  end.
Proof.
  destruct t; cbn; [| reflexivity | reflexivity].
  eexists _, _. repeat split; reflexivity.
Qed.

End wire_format.

Section receive_loop_shape.
Import queue_service samples.
Context {W E : Type}.
Variable ambient_of : E -> ambient.

Lemma receive_one_callback_goes_on (max_messages : Z)
    (cb : processor_callback (W := W) (E := E))
    (x : E * ServiceBusMessage) (st : loop_state (W := W)) :
  1 <= max_messages ->
  messages_received st = [] ->
  messages_received (receive_one ambient_of max_messages (Some cb) x st) = []
  /\ stopped (receive_one ambient_of max_messages (Some cb) x st) = false.
Proof.
  intros Hmax Hnil. destruct x as [env message]. unfold receive_one.
  assert (Hreach : reached max_messages (messages_received st) = false).
  { rewrite Hnil. unfold reached. cbn. apply Z.leb_gt. lia. }
  destruct (from_json _ _) as [job | ex].
  - destruct (cb env job message (callback_state st)) as [[b | ex] w'].
    + cbn. now rewrite Hreach.
    + destruct ex; cbn; now rewrite Hnil.
  - destruct ex; cbn; now rewrite Hnil.
Qed.

(** With a processor callback and [max_messages] of at least 1, the
    [max_messages] test never stops the loop: every message the receiver
    yields is handled, in order, and the list returned is empty. *)
Theorem callback_loop_handles_every_message (max_messages : Z)
    (cb : processor_callback (W := W) (E := E))
    (incoming : list (E * ServiceBusMessage)) (w : W) :
  1 <= max_messages ->
  receive_messages ambient_of max_messages (Some cb) incoming w =
    fold_left (fun st x => receive_one ambient_of max_messages (Some cb) x st)
              incoming (mkLoop [] [] w false) /\
  messages_received
    (receive_messages ambient_of max_messages (Some cb) incoming w) = [].
Proof.
  intros Hmax. unfold receive_messages.
  assert (Hgen : forall st, messages_received st = [] ->
            receive_loop ambient_of max_messages (Some cb) incoming st =
              fold_left
                (fun st x => receive_one ambient_of max_messages (Some cb) x st)
                incoming st /\
            messages_received
              (receive_loop ambient_of max_messages (Some cb) incoming st)
              = []).
  { induction incoming as [| x rest IH]; intros st Hnil; cbn.
    - split; [reflexivity | exact Hnil].
    - destruct (receive_one_callback_goes_on max_messages cb x st Hmax Hnil)
        as [Hnil' Hgo].
      rewrite Hgo. now apply IH. }
  now apply Hgen.
Qed.

Lemma receive_loop_no_callback (max_messages : Z)
    (incoming : list (E * ServiceBusMessage)) (st : loop_state (W := W)) :
  Z.of_nat (length (messages_received st)) < max_messages ->
  Forall (fun ev => exists d, snd ev = DeadLetter "ProcessingError" d)
         (settled st) ->
  let r := receive_loop ambient_of max_messages None incoming st in
  Z.of_nat (length (messages_received r)) <= max_messages /\
  callback_state r = callback_state st /\
  Forall (fun ev => exists d, snd ev = DeadLetter "ProcessingError" d)
         (settled r).
Proof.
  revert st. induction incoming as [| [env message] rest IH];
    intros st Hlen Hdead; cbn.
  - repeat split; [lia | exact Hdead].
  - destruct (from_json _ _) as [job | ex] eqn:Hparse.
    + cbn. unfold reached. rewrite length_app. cbn [length].
      destruct (max_messages <=? _) eqn:Hstop; cbn.
      * apply Z.leb_le in Hstop. rewrite length_app. cbn [length].
        repeat split; [lia | exact Hdead].
      * apply Z.leb_gt in Hstop.
        apply (IH (mkLoop (messages_received st ++ [(job, message)])
                          (settled st) (callback_state st) false)).
        -- cbn. rewrite length_app. cbn [length]. lia.
        -- exact Hdead.
    + destruct (from_json_raises _ _ _ Hparse) as (cls & msg & ->). cbn.
      apply (IH (mkLoop (messages_received st)
                        (settled st ++
                           [(sb_message_id message,
                             DeadLetter "ProcessingError" msg)])
                        (callback_state st) false)).
      * exact Hlen.
      * apply Forall_app. split; [exact Hdead |].
        apply Forall_cons. split; [cbn; eauto | apply Forall_nil_2].
Qed.

(** Without a callback and with [max_messages] of at least 1, at most
    [max_messages] messages are returned, and the only settlement made is
    the dead-lettering of bodies that do not parse: nothing is completed or
    abandoned. *)
Theorem receive_without_callback_is_bounded (max_messages : Z)
    (incoming : list (E * ServiceBusMessage)) (w : W) :
  1 <= max_messages ->
  let r := receive_messages ambient_of max_messages None incoming w in
  Z.of_nat (length (messages_received r)) <= max_messages /\
  callback_state r = w /\
  Forall (fun ev => exists d, snd ev = DeadLetter "ProcessingError" d)
         (settled r).
Proof.
  intros Hmax. unfold receive_messages.
  apply (receive_loop_no_callback max_messages incoming
           (mkLoop [] [] w false)); cbn; [lia | apply Forall_nil_2].
Qed.

End receive_loop_shape.

Section receive_loop_shape_examples.
Import queue_service samples.

(** Two deliveries with [max_messages = 1] and a callback: both are
    settled and nothing is returned. *)
Lemma callback_loop_handles_every_message_witness :
  settled (receive_messages as_read 1 (Some accepting_callback)
             [(later, message_of job1); (later_still, message_of job2)] tt)
    = [("msg-1", Complete); ("msg-4", Complete)] /\
  messages_received
    (receive_messages as_read 1 (Some accepting_callback)
       [(later, message_of job1); (later_still, message_of job2)] tt) = [].
Proof.
  destruct (callback_loop_handles_every_message as_read 1 accepting_callback
              [(later, message_of job1); (later_still, message_of job2)] tt)
    as [Hfold Hnil]; [lia |].
  split; [rewrite Hfold; reflexivity | exact Hnil].
Defined.

(** Four deliveries with [max_messages = 2] and no callback: the garbled
    one is dead-lettered, two jobs are returned. *)
Lemma receive_without_callback_is_bounded_witness :
  (Z.of_nat
     (length
        (messages_received
           (receive_messages (W := unit) as_read 2 None
              [(later, garbled); (later, message_of job1);
               (later, message_of job2); (later, message_of job3)] tt)))
   <= 2) /\
  settled
    (receive_messages (W := unit) as_read 2 None
       [(later, garbled); (later, message_of job1);
        (later, message_of job2); (later, message_of job3)] tt)
    = [("msg-7",
        DeadLetter "ProcessingError"
          "Expecting property name enclosed in double quotes: line 1 column 2 (char 1)")].
Proof.
  split.
  - apply (receive_without_callback_is_bounded (W := unit) as_read 2
             [(later, garbled); (later, message_of job1);
              (later, message_of job2); (later, message_of job3)] tt).
    lia.
  - reflexivity.
Defined.

End receive_loop_shape_examples.

Section resubmission_outcomes.
Import queue_service samples.



(** The value [send_generation_request] returns is not looked at: when
    the send fails without raising (it returns [False]), the dead-lettered
    message is completed all the same and [True] is returned, so the
    message is in neither queue afterwards. *)
Theorem unsent_resubmission_drops_message (e_parse : ambient)
    (ambient_at : nat -> ambient) (transport_at : nat -> transport)
    (k : nat) (why mid : string) (q : queues) (message : ServiceBusMessage)
    (parsed : GenerationJobMessage) :
  List.find (fun m => String.eqb (sb_message_id m) mid) (deadletter q)
    = Some message ->
  from_json e_parse (sb_body message) = Ok parsed ->
  (k < 3)%nat ->
  (forall i, (i < k)%nat -> exists busy, transport_at i = BusFailure busy) ->
  transport_at k = OtherFailure why ->
  resubmit_dead_letter_message e_parse ambient_at transport_at None mid q =
    (true,
     mkQueues (main_queue q)
              (complete_message (sb_message_id message) (deadletter q))).
Proof.
  intros Hfind Hparse Hk Hbefore Hat. unfold resubmit_dead_letter_message.
  rewrite Hfind, Hparse.
  cbn [generation_id user_id job_type prompt model settings callback_url
       priority].
  rewrite (send_retrying_first_settled 3 0 k); cbn [Nat.add];
    [| exact Hk | exact Hbefore | rewrite Hat; discriminate].
  now rewrite Hat.
Qed.

Lemma unsent_resubmission_drops_message_witness :
  resubmit_dead_letter_message later stamps (fun _ => OtherFailure "timeout")
    None "msg-1" dead_queue = (true, mkQueues [] []).
Proof.
  apply (unsent_resubmission_drops_message later stamps
           (fun _ => OtherFailure "timeout") 0%nat "timeout"
           "msg-1" dead_queue (message_of job3)
           (mkJob "gen-1" "user-1" "text_to_image" "a red fox"
                  "flux-schnell" {[ "width" := JInt 512 ]}
                  (Some "https://hook.example/cb") "high" 3
                  2000 "msg-2")); try reflexivity; [lia |].
  intros i Hi. lia.
Defined.

End resubmission_outcomes.

Section batch_sending.
Import queue_service samples.
Variable fits : list ServiceBusMessage -> ServiceBusMessage -> bool.
Variable too_large : exn.
Variable transport_of : list ServiceBusMessage -> transport.

Lemma fill_keeps_order (messages : list GenerationJobMessage)
    (batch : list ServiceBusMessage) (sent : list (list ServiceBusMessage)) :
  (forall m, fits [] (batch_message m) = true) ->
  (forall b, transport_of b = Delivered) ->
  Forall (fun b => b <> []) sent ->
  exists batch' sent',
    fill fits too_large transport_of messages batch sent
      = (Ok batch', sent') /\
    concat sent' ++ batch'
      = concat sent ++ batch ++ map batch_message messages /\
    Forall (fun b => b <> []) sent'.
Proof.
  intros Hfits Hdelivered. revert batch sent.
  induction messages as [| m rest IH]; intros batch sent Hsent; cbn.
  - exists batch, sent. rewrite app_nil_r. eauto.
  - destruct (fits batch (batch_message m)) eqn:Hadd.
    + destruct (IH (batch ++ [batch_message m]) sent Hsent)
        as (b' & s' & -> & Hcat & Hne).
      exists b', s'. repeat split; [| exact Hne].
      rewrite Hcat. now rewrite <- app_assoc.
    + rewrite Hdelivered, Hfits.
      assert (Hbatch : batch <> [])
        by (intros ->; rewrite Hfits in Hadd; discriminate).
      destruct (IH [batch_message m] (sent ++ [batch])) as
        (b' & s' & -> & Hcat & Hne).
      { apply Forall_app. split; [exact Hsent |].
        apply Forall_cons. split; [exact Hbatch | apply Forall_nil_2]. }
      exists b', s'. repeat split; [| exact Hne].
      rewrite Hcat, concat_app. cbn. rewrite app_nil_r.
      now rewrite <- !app_assoc.
Qed.

(** When every message fits into an empty batch and the sender delivers,
    [send_batch_requests] returns [True] and puts the messages on the
    queue once each, in the order given, however they are split into
    batches; no empty batch is handed to the sender in the loop. *)
Theorem batch_send_keeps_every_message
    (messages : list GenerationJobMessage) (q : queues) :
  (forall m, fits [] (batch_message m) = true) ->
  (forall b, transport_of b = Delivered) ->
  send_batch_requests fits too_large transport_of messages q =
    (Ok true,
     mkQueues (main_queue q ++ map batch_message messages) (deadletter q)) /\
  Forall (fun b => b <> [])
         (snd (fill fits too_large transport_of messages [] [])).
Proof.
  intros Hfits Hdelivered. unfold send_batch_requests.
  destruct (fill_keeps_order messages [] [] Hfits Hdelivered
              (Forall_nil_2 _)) as (batch & sent & Hfill & Hcat & Hne).
  rewrite Hfill. cbn in Hcat. cbn [snd]. split; [| exact Hne].
  destruct batch as [| m0 batch]; cbn.
  - rewrite app_nil_r in Hcat. unfold enqueue. now rewrite Hcat.
  - rewrite Hdelivered. unfold enqueue.
    rewrite concat_app. cbn. rewrite app_nil_r. now rewrite Hcat.
Qed.

End batch_sending.

Section batch_sending_examples.
Import queue_service samples.

(** Three jobs with batches of at most two messages: all three are on the
    queue, in order. *)
Lemma batch_send_keeps_every_message_witness :
  send_batch_requests two_at_most samples.too_large always_delivered
                      [job1; job2; job3] (mkQueues [] []) =
    (Ok true,
     mkQueues [batch_message job1; batch_message job2; batch_message job3]
              []).
Proof.
  apply (batch_send_keeps_every_message two_at_most samples.too_large
           always_delivered [job1; job2; job3] (mkQueues [] []));
    reflexivity.
Defined.

End batch_sending_examples.

(** * Properties of the repositories *)

Section collection.
Import mongodb worker_service.

Lemma has_id_union gid (upd doc : document) :
  upd !! "id" = None -> has_id gid (upd ∪ doc) = has_id gid doc.
Proof.
  unfold has_id. intros H.
  now rewrite (lookup_union_r upd doc "id" H).
Qed.

Lemma has_id_other gid other (doc : document) :
  has_id gid doc = true -> other <> gid -> has_id other doc = false.
Proof.
  unfold has_id. destruct (doc !! "id") as [[] |]; try discriminate.
  intros Hs Hne. apply String.eqb_eq in Hs. subst. now apply String.eqb_neq.
Qed.

Lemma find_one_and_update_None gid upd coll :
  List.find (has_id gid) coll = None ->
  find_one_and_update gid upd coll = None.
Proof.
  induction coll as [| doc rest IH]; cbn; [reflexivity |].
  destruct (has_id gid doc); [discriminate |].
  intros H. now rewrite IH.
Qed.

Lemma find_one_and_update_Some gid upd coll doc :
  List.find (has_id gid) coll = Some doc ->
  exists coll',
    find_one_and_update gid upd coll = Some (upd ∪ doc, coll') /\
    length coll' = length coll /\
    (upd !! "id" = None ->
       List.find (has_id gid) coll' = Some (upd ∪ doc) /\
       (forall other, other <> gid ->
          List.find (has_id other) coll' = List.find (has_id other) coll) /\
       map (fun d : document => d !! "id") coll'
         = map (fun d : document => d !! "id") coll).
Proof.
  induction coll as [| d rest IH]; cbn; [discriminate |].
  destruct (has_id gid d) eqn:Hd.
  - intros [= ->]. eexists. split; [reflexivity |]. split; [reflexivity |].
    intros Hupd. cbn. rewrite (has_id_union gid upd doc Hupd), Hd.
    split; [reflexivity |]. split.
    + intros other Hne. rewrite (has_id_union other upd doc Hupd).
      now rewrite (has_id_other gid other doc Hd Hne).
    + f_equal. now apply lookup_union_r.
  - intros Hfind. destruct (IH Hfind) as (coll' & -> & Hlen & Hrest).
    eexists. split; [reflexivity |]. split; [cbn; now rewrite Hlen |].
    intros Hupd. destruct (Hrest Hupd) as (Hsame & Hother & Hids).
    cbn. rewrite Hd. split; [exact Hsame |]. split.
    + intros other Hne. destruct (has_id other d); [reflexivity |].
      now apply Hother.
    + now rewrite Hids.
Qed.

Lemma update_by_id_absent now gid upd db :
  find_one gid db = None -> update_by_id now gid upd db = (Ok None, db).
Proof.
  unfold find_one, update_by_id. intros H.
  now rewrite (find_one_and_update_None _ _ _ H).
Qed.

(** What [update_by_id] does with a stored document: the write, and then
    the model class on the document written. *)
Lemma update_by_id_present now gid upd db doc :
  find_one gid db = Some doc ->
  exists coll',
    update_by_id now gid upd db =
      (let* model :=
         model_class db ((<["updated_at" := VTime now]> upd) ∪ doc) in
       Ok (Some model),
       with_generations coll' db) /\
    length coll' = length (generations db) /\
    (upd !! "id" = None ->
       List.find (has_id gid) coll'
         = Some ((<["updated_at" := VTime now]> upd) ∪ doc) /\
       (forall other, other <> gid ->
          List.find (has_id other) coll'
            = List.find (has_id other) (generations db)) /\
       map (fun d : document => d !! "id") coll'
         = map (fun d : document => d !! "id") (generations db)).
Proof.
  unfold find_one, update_by_id. intros H.
  destruct (find_one_and_update_Some gid (<["updated_at" := VTime now]> upd)
              _ _ H) as (coll' & -> & Hlen & Hrest).
  exists coll'. split; [reflexivity |]. split; [exact Hlen |].
  intros Hupd. apply Hrest. now rewrite lookup_insert_ne by done.
Qed.

Lemma update_by_id_ledger now gid upd db :
  ledger_of (snd (update_by_id now gid upd db)) = ledger_of db.
Proof.
  unfold update_by_id. destruct (find_one_and_update _ _ _) as [[] |];
    reflexivity.
Qed.

Lemma update_by_id_model_class now gid upd db :
  model_class (snd (update_by_id now gid upd db)) = model_class db.
Proof.
  unfold update_by_id. destruct (find_one_and_update _ _ _) as [[] |];
    reflexivity.
Qed.

Lemma update_by_id_length now gid upd db :
  length (generations (snd (update_by_id now gid upd db)))
    = length (generations db).
Proof.
  destruct (find_one gid db) as [doc |] eqn:Hdoc.
  - destruct (update_by_id_present now gid upd db doc Hdoc)
      as (coll' & -> & Hlen & _). exact Hlen.
  - now rewrite (update_by_id_absent _ _ _ _ Hdoc).
Qed.

Lemma update_by_id_ids now gid upd db :
  upd !! "id" = None ->
  map (fun d : document => d !! "id")
      (generations (snd (update_by_id now gid upd db)))
    = map (fun d : document => d !! "id") (generations db).
Proof.
  intros Hupd. destruct (find_one gid db) as [doc |] eqn:Hdoc.
  - destruct (update_by_id_present now gid upd db doc Hdoc)
      as (coll' & -> & _ & Hrest). now apply Hrest.
  - now rewrite (update_by_id_absent _ _ _ _ Hdoc).
Qed.

Lemma update_by_id_stored now gid upd db doc :
  find_one gid db = Some doc ->
  upd !! "id" = None ->
  find_one gid (snd (update_by_id now gid upd db))
    = Some ((<["updated_at" := VTime now]> upd) ∪ doc).
Proof.
  intros Hdoc Hupd.
  destruct (update_by_id_present now gid upd db doc Hdoc)
    as (coll' & -> & _ & Hrest). now apply Hrest.
Qed.

Lemma update_by_id_others now gid upd db other :
  upd !! "id" = None ->
  other <> gid ->
  find_one other (snd (update_by_id now gid upd db)) = find_one other db.
Proof.
  intros Hupd Hne. destruct (find_one gid db) as [doc |] eqn:Hdoc.
  - destruct (update_by_id_present now gid upd db doc Hdoc)
      as (coll' & -> & _ & Hrest). now apply Hrest.
  - now rewrite (update_by_id_absent _ _ _ _ Hdoc).
Qed.

(** ** Fields of a record after a write *)

Lemma field_written now gid upd db doc k v :
  find_one gid db = Some doc ->
  upd !! "id" = None ->
  (<["updated_at" := VTime now]> upd) !! k = Some v ->
  field_of k gid (snd (update_by_id now gid upd db)) = Some v.
Proof.
  intros Hdoc Hupd Hk. unfold field_of.
  rewrite (update_by_id_stored _ _ _ _ _ Hdoc Hupd). cbn.
  now apply lookup_union_Some_l.
Qed.

Lemma field_untouched now gid upd db k :
  upd !! "id" = None ->
  (<["updated_at" := VTime now]> upd) !! k = None ->
  field_of k gid (snd (update_by_id now gid upd db)) = field_of k gid db.
Proof.
  intros Hupd Hk. unfold field_of.
  destruct (find_one gid db) as [doc |] eqn:Hdoc.
  - rewrite (update_by_id_stored _ _ _ _ _ Hdoc Hupd). cbn.
    now apply lookup_union_r.
  - rewrite (update_by_id_absent _ _ _ _ Hdoc). cbn [snd]. now rewrite Hdoc.
Qed.

Lemma record_stays now gid upd db doc :
  find_one gid db = Some doc ->
  upd !! "id" = None ->
  exists doc', find_one gid (snd (update_by_id now gid upd db)) = Some doc'.
Proof.
  intros Hdoc Hupd. rewrite (update_by_id_stored _ _ _ _ _ Hdoc Hupd). eauto.
Qed.

(** [update_by_id] writes one document and never creates or removes one:
    for an absent id it returns [None] and leaves the database as it was,
    and in any case the number of documents and the credit ledger are
    unchanged. When the update does not name [id], the ids of the
    documents stay as they are, every other id finds the document it
    found before, the fields of the record that the update does not name
    are kept, [updated_at] of the record becomes the current time even
    when the update carries another value for it, and what is returned
    is what the model class makes of the document written: its exception
    comes after the write. *)
Theorem update_by_id_touches_one_document (now : Z) (gid : string)
    (upd : document) (db : database) :
  (find_one gid db = None -> update_by_id now gid upd db = (Ok None, db)) /\
  length (generations (snd (update_by_id now gid upd db)))
    = length (generations db) /\
  ledger_of (snd (update_by_id now gid upd db)) = ledger_of db /\
  (upd !! "id" = None ->
     map (fun d : document => d !! "id")
         (generations (snd (update_by_id now gid upd db)))
       = map (fun d : document => d !! "id") (generations db) /\
     (forall other, other <> gid ->
        find_one other (snd (update_by_id now gid upd db))
          = find_one other db) /\
     (forall k, k <> "updated_at" -> upd !! k = None ->
        field_of k gid (snd (update_by_id now gid upd db))
          = field_of k gid db) /\
     (forall doc, find_one gid db = Some doc ->
        field_of "updated_at" gid (snd (update_by_id now gid upd db))
          = Some (VTime now) /\
        fst (update_by_id now gid upd db) =
          let* model :=
            model_class db ((<["updated_at" := VTime now]> upd) ∪ doc) in
          Ok (Some model))).
Proof.
  split; [apply update_by_id_absent |].
  split; [apply update_by_id_length |].
  split; [apply update_by_id_ledger |].
  intros Hupd. split; [now apply update_by_id_ids |].
  split; [intros other Hne; now apply update_by_id_others |].
  split.
  - intros k Hk Hnone. apply field_untouched; [exact Hupd |].
    now rewrite lookup_insert_ne by congruence.
  - intros doc Hdoc. split.
    + apply (field_written _ _ _ _ doc); [exact Hdoc | exact Hupd |].
      apply lookup_insert_eq.
    + destruct (update_by_id_present now gid upd db doc Hdoc)
        as (coll' & -> & _). reflexivity.
Qed.

End collection.

Section collection_examples.
Import mongodb worker_service samples.

(** An update of [gen-1] in a collection of two records: the record of
    [gen-2] is found as before, and a record that the model class refuses
    is written all the same, with the exception raised afterwards. *)
Lemma update_by_id_touches_one_document_witness :
  find_one "gen-2"
    (snd (update_by_id 1500 "gen-1" {[ "status" := VStr "failed" ]}
                       (shop pending_doc))) = Some other_doc /\
  is_ok (fst (update_by_id 1500 "gen-1" {[ "status" := VStr "failed" ]}
                           (shop promptless_doc))) = false /\
  field_of "status" "gen-1"
    (snd (update_by_id 1500 "gen-1" {[ "status" := VStr "failed" ]}
                       (shop promptless_doc))) = Some (VStr "failed").
Proof.
  destruct (update_by_id_touches_one_document 1500 "gen-1"
              {[ "status" := VStr "failed" ]} (shop pending_doc))
    as (_ & _ & _ & H); destruct (H eq_refl) as (_ & Hother & _).
  split; [rewrite Hother; [reflexivity | discriminate] |].
  split; vm_compute; reflexivity.
Defined.

End collection_examples.

(** * Properties of the credit ledger *)

Section credit_ledger.
Import mongodb samples.

(** C5: [CreditService.deduct_credits] never reaches its balance check:
    its first statement calls a method the subscription repository does
    not have, so every call raises [AttributeError] and leaves the
    database as it was; it neither raises [InsufficientCreditsError] nor
    deducts. The deduct operation that runs, [UserRepository.deduct_credits],
    fails closed with a [ValueError]: the database is unchanged when the
    balance is less than the amount; otherwise the stored balance is the
    old balance minus the amount, which is not negative, and no other
    balance changes. *)
Theorem deduct_credits_as_shipped (now : Z) (uid : string) (credits : Z)
    (gid : option string) (meta : option (list (string * string)))
    (db : database) :
  credit_service.deduct_credits now uid credits gid meta db =
    (Raise (Raised AttributeError
              "'SubscriptionRepository' object has no attribute 'get_by_user_id'"),
     db) /\
  forall balance, users db !! uid = Some balance ->
    (balance < credits ->
       mongodb.deduct_credits now uid credits db =
         (Raise (Raised ValueError
                   ("Insufficient credits. Required: " ++ pretty credits ++
                    ", Available: " ++ pretty balance)%string),
          db)) /\
    (credits <= balance ->
       fst (mongodb.deduct_credits now uid credits db)
         = Ok (Some (balance - credits)) /\
       users (snd (mongodb.deduct_credits now uid credits db)) !! uid
         = Some (balance - credits) /\
       0 <= balance - credits /\
       forall other, other <> uid ->
         users (snd (mongodb.deduct_credits now uid credits db)) !! other
           = users db !! other).
Proof.
  split; [reflexivity |].
  intros balance Hu. unfold mongodb.deduct_credits. rewrite Hu.
  split; intros Hcmp.
  - apply Z.ltb_lt in Hcmp. now rewrite Hcmp.
  - assert (Hge : (balance <? credits) = false) by now apply Z.ltb_ge.
    rewrite Hge. cbn. rewrite lookup_insert_eq.
    repeat split; [lia |].
    intros other Hne. now rewrite lookup_insert_ne by congruence.
Qed.

(** The user of the examples has 8 credits: the credit service raises
    [AttributeError]; in the user repository, asking for 9 is refused and
    changes nothing, asking for 8 leaves 0. *)
Lemma deduct_credits_as_shipped_witness :
  is_ok (fst (credit_service.deduct_credits 1000 "user-1" 5 (Some "gen-1")
                None bank)) = false /\
  mongodb.deduct_credits 1000 "user-1" 9 bank =
    (Raise (Raised ValueError
              "Insufficient credits. Required: 9, Available: 8"), bank) /\
  users (snd (mongodb.deduct_credits 1000 "user-1" 8 bank)) !! "user-1"
    = Some 0.
Proof.
  destruct (deduct_credits_as_shipped 1000 "user-1" 5 (Some "gen-1") None
              bank) as [Hservice _].
  split; [now rewrite Hservice |].
  split.
  - destruct (deduct_credits_as_shipped 1000 "user-1" 9 None None bank)
      as [_ H].
    destruct (H 8 eq_refl) as [Hshort _]. apply Hshort. lia.
  - destruct (deduct_credits_as_shipped 1000 "user-1" 8 None None bank)
      as [_ H].
    destruct (H 8 eq_refl) as [_ Hfull].
    destruct Hfull as (_ & Hstored & _); [lia |]. exact Hstored.
Defined.

(** [add_credits] of the amount [deduct_credits] has just taken, which is
    what the submission path does when the queue refuses a job, gives back
    every balance; of the user's document only [updated_at] differs, which
    is the time of the [add_credits]. The other collections are as they
    were. *)
Theorem add_credits_undoes_deduct (t0 t1 : Z) (uid : string)
    (credits balance : Z) (db : database) :
  users db !! uid = Some balance ->
  credits <= balance ->
  let db' :=
    snd (add_credits t1 uid credits
           (snd (mongodb.deduct_credits t0 uid credits db))) in
  users db' = users db /\
  users_updated_at db' = <[uid := t1]> (users_updated_at db) /\
  generations db' = generations db /\
  subscriptions db' = subscriptions db /\
  usage_logs db' = usage_logs db.
Proof.
  intros Hu Hle. cbn zeta.
  unfold mongodb.deduct_credits, add_credits. rewrite Hu.
  rewrite (proj2 (Z.ltb_ge _ _) Hle). cbn.
  rewrite lookup_insert_eq. cbn.
  rewrite !insert_insert_eq.
  replace (balance - credits + credits) with balance by lia.
  rewrite insert_id by exact Hu. repeat split.
Qed.

Lemma add_credits_undoes_deduct_witness :
  users (snd (add_credits 1100 "user-1" 5
                (snd (mongodb.deduct_credits 1000 "user-1" 5 bank))))
    = users bank /\
  users_updated_at
    (snd (add_credits 1100 "user-1" 5
            (snd (mongodb.deduct_credits 1000 "user-1" 5 bank))))
    !! "user-1" = Some 1100.
Proof.
  destruct (add_credits_undoes_deduct 1000 1100 "user-1" 5 8 bank)
    as (H1 & H2 & _); [reflexivity | lia |].
  split; [exact H1 |]. rewrite H2. apply lookup_insert_eq.
Defined.

End credit_ledger.

(** * Properties of the worker *)

Section worker.
Import queue_service mongodb credit_service azure_blob_service worker_service
       samples.

(** ** Uploads *)

Lemma upload_one_raises s gid uid idx img :
  exists e, upload_one s gid uid idx img = Raise e.
Proof.
  unfold upload_one, bind.
  destruct (upload_image s uid gid _ img); cbn; eauto.
Qed.

Lemma upload_from_nil s gid uid idx images :
  upload_from s gid uid idx images = [].
Proof.
  revert idx. induction images as [| img rest IH]; intros idx; cbn.
  - reflexivity.
  - destruct (upload_one_raises s gid uid idx img) as [e ->]. apply IH.
Qed.

Lemma _upload_images_raises s gid uid images :
  _upload_images s gid uid images =
    Raise (Raised Exception "Failed to upload any images to blob storage").
Proof. unfold _upload_images. now rewrite upload_from_nil. Qed.

(** ** The pipeline *)

(** The pipeline always ends with an exception, which does not depend on
    the database, and writes nothing itself. *)
Lemma run_pipeline_raises s job :
  exists e, forall db, run_pipeline s job db = (Raise e, db).
Proof.
  unfold run_pipeline.
  destruct (_call_replicate_api s) as [p | e]; [| eauto].
  destruct (negb _); [eauto |].
  destruct (replicate_service.output p) as [| u us]; [eauto |].
  destruct (replicate_service.download_all_outputs _ (u :: us));
    [eauto |].
  rewrite _upload_images_raises. eauto.
Qed.

Lemma run_pipeline_raise_any_db s job db0 db e :
  fst (run_pipeline s job db0) = Raise e ->
  run_pipeline s job db = (Raise e, db).
Proof.
  destruct (run_pipeline_raises s job) as [e0 Hall].
  rewrite (Hall db0). cbn. intros [= ->]. apply Hall.
Qed.

Lemma _handle_job_failure_returns now job raw e db :
  _handle_job_failure now job raw e db =
    (false,
     _update_status now (generation_id job) mongodb.FAILED
       {[ "error_message" := VStr (str_exn e);
          "failed_at" := VTime now;
          "attempts" := VInt (attempt job) ]} db).
Proof.
  unfold _handle_job_failure. destruct (attempt job <? max_retries);
    reflexivity.
Qed.

(** Every job is handled as a failure: two status writes on its record. *)
Lemma process_generation_job_failed s job raw db :
  exists e,
    (forall db', run_pipeline s job db' = (Raise e, db')) /\
    process_generation_job s job raw db =
      (Ok false,
       _update_status (finished s) (generation_id job) mongodb.FAILED
         {[ "error_message" := VStr (str_exn e);
            "failed_at" := VTime (finished s);
            "attempts" := VInt (attempt job) ]}
         (_update_status (started s) (generation_id job) mongodb.PROCESSING
            {[ "started_at" := VTime (started s) ]} db)).
Proof.
  destruct (run_pipeline_raises s job) as [e Hall]. exists e.
  split; [exact Hall |].
  unfold process_generation_job. rewrite Hall.
  now rewrite _handle_job_failure_returns.
Qed.

Lemma process_generation_job_returns s job raw db :
  fst (process_generation_job s job raw db) = Ok false.
Proof.
  destruct (process_generation_job_failed s job raw db) as (e & _ & ->).
  reflexivity.
Qed.

(** ** Writes of the worker stay inside the generations collection *)

Lemma _update_status_ledger now gid st add db :
  ledger_of (_update_status now gid st add db) = ledger_of db.
Proof. apply update_by_id_ledger. Qed.

Lemma process_generation_job_ledger s job raw db :
  ledger_of (snd (process_generation_job s job raw db)) = ledger_of db.
Proof.
  destruct (process_generation_job_failed s job raw db) as (e & _ & ->).
  cbn [snd]. now rewrite !_update_status_ledger.
Qed.

Lemma receive_one_worker_ledger (x : surroundings * ServiceBusMessage)
    (st : loop_state (W := database)) :
  ledger_of (callback_state
               (receive_one at_parse 1 (Some process_generation_job) x st))
    = ledger_of (callback_state st).
Proof.
  destruct x as [s message]. unfold receive_one.
  destruct (from_json _ _) as [job | ex].
  - pose proof (process_generation_job_ledger s job message
                  (callback_state st)) as Hl.
    pose proof (process_generation_job_returns s job message
                  (callback_state st)) as Hb.
    destruct (process_generation_job s job message (callback_state st))
      as [r db']. cbn in Hl, Hb. subst r. exact Hl.
  - destruct ex; reflexivity.
Qed.

Lemma receive_loop_worker_ledger
    (incoming : list (surroundings * ServiceBusMessage))
    (st : loop_state (W := database)) :
  ledger_of (callback_state
               (receive_loop at_parse 1 (Some process_generation_job)
                             incoming st))
    = ledger_of (callback_state st).
Proof.
  revert st. induction incoming as [| x rest IH]; intros st; cbn.
  - reflexivity.
  - destruct (stopped _).
    + apply receive_one_worker_ledger.
    + rewrite IH. apply receive_one_worker_ledger.
Qed.

(** ** Fields of a record after a status write of the worker *)

Lemma status_update_id (add : document) (a b : value) :
  add !! "id" = None ->
  (add ∪ ({[ "status" := a; "updated_at" := b ]} : document)) !! "id" = None.
Proof.
  intros Hadd. apply lookup_union_None. split; [exact Hadd | reflexivity].
Qed.

Lemma _update_status_status now gid st add db doc :
  find_one gid db = Some doc ->
  add !! "status" = None ->
  add !! "id" = None ->
  status_of gid (_update_status now gid st add db)
    = Some (VStr (value_of st)).
Proof.
  intros Hdoc Hadd Hid. unfold status_of, _update_status.
  apply (field_written _ _ _ _ doc); [exact Hdoc | |].
  - now apply status_update_id.
  - rewrite lookup_insert_ne by done.
    rewrite lookup_union_r by exact Hadd. reflexivity.
Qed.

Lemma _update_status_record now gid st add db doc :
  find_one gid db = Some doc ->
  add !! "id" = None ->
  exists doc', find_one gid (_update_status now gid st add db) = Some doc'.
Proof.
  intros Hdoc Hid. apply (record_stays _ _ _ _ doc); [exact Hdoc |].
  now apply status_update_id.
Qed.

Lemma failure_fields (a b c : value) (k : string) :
  k <> "status" -> k <> "updated_at" -> k <> "error_message" ->
  k <> "failed_at" -> k <> "attempts" ->
  forall now st,
  (<["updated_at" := VTime now]>
     (({[ "error_message" := a; "failed_at" := b; "attempts" := c ]}
         : document) ∪
      {[ "status" := VStr st; "updated_at" := VTime now ]})) !! k = None.
Proof.
  intros. rewrite lookup_insert_ne by congruence.
  apply lookup_union_None. split.
  - rewrite !lookup_insert_ne by congruence.
    now rewrite lookup_singleton_ne by congruence.
  - rewrite lookup_insert_ne by congruence.
    now rewrite lookup_singleton_ne by congruence.
Qed.

Lemma started_at_only (v : value) :
  ({[ "started_at" := v ]} : document) !! "id" = None.
Proof. now apply lookup_singleton_ne. Qed.

(** The record of a job after the job has been processed. *)
Lemma process_generation_job_record s job raw db doc :
  find_one (generation_id job) db = Some doc ->
  exists e,
    (forall db', run_pipeline s job db' = (Raise e, db')) /\
    status_of (generation_id job) (snd (process_generation_job s job raw db))
      = Some (VStr (value_of mongodb.FAILED)) /\
    field_of "error_message" (generation_id job)
             (snd (process_generation_job s job raw db))
      = Some (VStr (str_exn e)) /\
    field_of "attempts" (generation_id job)
             (snd (process_generation_job s job raw db))
      = Some (VInt (attempt job)) /\
    field_of "started_at" (generation_id job)
             (snd (process_generation_job s job raw db))
      = Some (VTime (started s)).
Proof.
  intros Hdoc.
  destruct (process_generation_job_failed s job raw db) as (e & Hall & ->).
  exists e. split; [exact Hall |]. cbn [snd].
  set (db1 := _update_status (started s) (generation_id job)
                mongodb.PROCESSING _ db).
  destruct (_update_status_record (started s) (generation_id job)
              mongodb.PROCESSING {[ "started_at" := VTime (started s) ]}
              db doc Hdoc (started_at_only _)) as [doc1 Hdoc1].
  fold db1 in Hdoc1.
  assert (Hstart : field_of "started_at" (generation_id job) db1
                   = Some (VTime (started s))).
  { unfold db1, _update_status.
    apply (field_written _ _ _ _ doc); [exact Hdoc | reflexivity |
                                        reflexivity]. }
  split; [| split; [| split]].
  - now apply (_update_status_status _ _ _ _ _ doc1).
  - unfold _update_status.
    apply (field_written _ _ _ _ doc1); [exact Hdoc1 | reflexivity |
                                         reflexivity].
  - unfold _update_status.
    apply (field_written _ _ _ _ doc1); [exact Hdoc1 | reflexivity |
                                         reflexivity].
  - unfold _update_status.
    rewrite field_untouched; [exact Hstart | reflexivity |].
    now apply failure_fields.
Qed.

(** ** One delivery to the worker *)

Lemma deliver_failed s message st job db0 e :
  from_json (at_parse s) (sb_body message) = Ok job ->
  fst (run_pipeline s job db0) = Raise e ->
  deliver s message st =
    mkLoop (messages_received st)
           (settled st ++ [(sb_message_id message, Abandon)])
           (_update_status (finished s) (generation_id job) mongodb.FAILED
              {[ "error_message" := VStr (str_exn e);
                 "failed_at" := VTime (finished s);
                 "attempts" := VInt (attempt job) ]}
              (_update_status (started s) (generation_id job)
                 mongodb.PROCESSING
                 {[ "started_at" := VTime (started s) ]}
                 (callback_state st)))
           (reached 1 (messages_received st)).
Proof.
  intros Hparse Hrun. unfold deliver, receive_one. rewrite Hparse.
  unfold process_generation_job.
  rewrite (run_pipeline_raise_any_db _ _ _ _ _ Hrun).
  rewrite _handle_job_failure_returns. reflexivity.
Qed.

Lemma retrying_all_fail {A : Type} (call : nat -> result A) attempts n text :
  (forall i, exists e, call i = Raise e) ->
  retrying attempts n text call = Raise (Raised RetryError text).
Proof.
  intros Hall. revert n. induction attempts as [| k IH]; intros n; cbn.
  - reflexivity.
  - destruct (Hall n) as [e ->]. apply IH.
Qed.

(** ** Refunds *)

(** The job of [job1], charged 2 credits, fails and its record becomes
    [failed], yet no refund is logged for it and the balances are what
    they were. *)
Lemma failed_job_gets_no_refund :
  let st := deliver rate_limited (message_of job1)
                    (worker_loop (shop pending_doc)) in
  status_of "gen-1" (callback_state st) = Some (VStr "failed") /\
  refunds_of "gen-1" (callback_state st) = [] /\
  users (callback_state st) !! "user-1" = Some 8 /\
  subscriptions (callback_state st) !! "user-1" = Some alice.
Proof. vm_compute. repeat split; reflexivity. Qed.

(** C1: the worker issues no refund at all. After any run of deliveries
    handled by [process_generation_job], also of jobs that reach [failed]
    and of redeliveries of them, the user balances, the subscriptions and
    the usage log are what they were before, so the refunds logged for a
    generation are unchanged. *)
Theorem worker_issues_no_refund
    (incoming : list (surroundings * ServiceBusMessage)) (db : database)
    (g : string) :
  let st := receive_messages at_parse 1 (Some process_generation_job)
                             incoming db in
  ledger_of (callback_state st) = ledger_of db /\
  refunds_of g (callback_state st) = refunds_of g db.
Proof.
  cbn zeta. unfold receive_messages.
  set (st := receive_loop _ _ _ _ _).
  assert (Hl : ledger_of (callback_state st) = ledger_of db)
    by apply (receive_loop_worker_ledger incoming (mkLoop [] [] db false)).
  split; [exact Hl |].
  unfold refunds_of. unfold ledger_of in Hl. now injection Hl as _ _ _ ->.
Qed.

(** ** Settlement of a failed job *)

(** C2, as stated, fails: [job3] is at attempt 3, which is [max_retries];
    its processing fails, and the message is abandoned, not
    dead-lettered. *)
Lemma third_failure_is_abandoned :
  attempt job3 = max_retries /\
  settled (deliver rate_limited (message_of job3)
                   (worker_loop (shop processing_doc)))
    = [("msg-1", Abandon)].
Proof. split; vm_compute; reflexivity. Qed.

(** C2, amended: for a leased job message whose processing fails, the
    only settlement is [abandon_message], whatever the attempt counter:
    [complete_message] is not called, and neither is
    [dead_letter_message], also at [attempt >= max_retries], where the
    code only logs and leaves dead-lettering to the broker. *)
Theorem failed_job_is_abandoned (s : surroundings)
    (message : ServiceBusMessage) (st : loop_state (W := database))
    (job : GenerationJobMessage) (db0 : database) (e : exn) :
  from_json (at_parse s) (sb_body message) = Ok job ->
  fst (run_pipeline s job db0) = Raise e ->
  settled (deliver s message st) =
    settled st ++ [(sb_message_id message, Abandon)].
Proof.
  intros Hparse Hrun.
  now rewrite (deliver_failed _ _ _ _ _ _ Hparse Hrun).
Qed.

(** A failing first attempt and a failing third attempt are both
    abandoned. *)
Lemma failed_job_is_abandoned_witness :
  settled (deliver rate_limited (message_of job1)
                   (worker_loop (shop pending_doc)))
    = [("msg-1", Abandon)] /\
  settled (deliver uploads_fail (message_of job3)
                   (worker_loop (shop processing_doc)))
    = [("msg-1", Abandon)].
Proof.
  split.
  - apply (failed_job_is_abandoned rate_limited (message_of job1)
             (worker_loop (shop pending_doc))
             (mkJob "gen-1" "user-1" "text_to_image" "a red fox"
                    "flux-schnell" {[ "width" := JInt 512 ]} None "normal" 1
                    2000 "msg-2")
             (shop pending_doc)
             (Raised RetryError (retry_error_text rate_limited)));
      reflexivity.
  - apply (failed_job_is_abandoned uploads_fail (message_of job3)
             (worker_loop (shop processing_doc))
             (mkJob "gen-1" "user-1" "text_to_image" "a red fox"
                    "flux-schnell" {[ "width" := JInt 512 ]}
                    (Some "https://hook.example/cb") "high" 3
                    2000 "msg-2")
             (shop processing_doc)
             (Raised Exception
                     "Failed to upload any images to blob storage"));
      reflexivity.
Defined.

(** ** Status writes *)







(** ** Rate-limit errors *)

(** The provider answers with a rate-limit error while the record of
    [gen-1] is [processing]; the record becomes [failed]. *)
Lemma rate_limit_marks_failed :
  generate_and_wait rate_limited 0
    = Raise (Raised ReplicateRateLimitError "rate limit exceeded") /\
  status_of "gen-1" (shop processing_doc) = Some (VStr "processing") /\
  status_of "gen-1"
    (callback_state (deliver rate_limited (message_of job1)
                             (worker_loop (shop processing_doc))))
    = Some (VStr "failed").
Proof. repeat split; vm_compute; reflexivity. Qed.

(** C4: a job whose processing fails with a provider rate-limit error is
    handled like any other failure: the status of its record is set to
    [failed] and the attempt number recorded with it, the message is
    abandoned for redelivery (without any backoff hint), and nothing is
    written to the balances or the usage log. *)
Theorem rate_limit_is_an_ordinary_failure (s : surroundings)
    (message : ServiceBusMessage) (st : loop_state (W := database))
    (job : GenerationJobMessage) (doc : document) :
  from_json (at_parse s) (sb_body message) = Ok job ->
  (forall n, exists msg,
      generate_and_wait s n = Raise (Raised ReplicateRateLimitError msg)) ->
  find_one (generation_id job) (callback_state st) = Some doc ->
  status_of (generation_id job) (callback_state (deliver s message st))
    = Some (VStr (value_of mongodb.FAILED)) /\
  field_of "attempts" (generation_id job)
           (callback_state (deliver s message st))
    = Some (VInt (attempt job)) /\
  settled (deliver s message st)
    = settled st ++ [(sb_message_id message, Abandon)] /\
  ledger_of (callback_state (deliver s message st))
    = ledger_of (callback_state st).
Proof.
  intros Hparse Hlimit Hdoc.
  assert (Hrun : fst (run_pipeline s job (callback_state st))
                 = Raise (Raised RetryError (retry_error_text s))).
  { unfold run_pipeline, _call_replicate_api.
    rewrite retrying_all_fail; [reflexivity |].
    intros i. destruct (Hlimit i) as [msg ->]. eauto. }
  rewrite (deliver_failed _ _ _ _ _ _ Hparse Hrun). cbn [callback_state settled].
  destruct (_update_status_record (started s) (generation_id job)
              mongodb.PROCESSING {[ "started_at" := VTime (started s) ]}
              _ doc Hdoc (started_at_only _)) as [doc1 Hdoc1].
  split; [| split; [| split]].
  - now apply (_update_status_status _ _ _ _ _ doc1).
  - unfold _update_status.
    apply (field_written _ _ _ _ doc1); [exact Hdoc1 | reflexivity |
                                         reflexivity].
  - reflexivity.
  - now rewrite !_update_status_ledger.
Qed.

Lemma rate_limit_is_an_ordinary_failure_witness :
  status_of "gen-1"
    (callback_state (deliver rate_limited (message_of job3)
                             (worker_loop (shop processing_doc))))
    = Some (VStr "failed") /\
  settled (deliver rate_limited (message_of job3)
                   (worker_loop (shop processing_doc)))
    = [("msg-1", Abandon)].
Proof.
  destruct (rate_limit_is_an_ordinary_failure rate_limited (message_of job3)
              (worker_loop (shop processing_doc))
              (mkJob "gen-1" "user-1" "text_to_image" "a red fox"
                     "flux-schnell" {[ "width" := JInt 512 ]}
                     (Some "https://hook.example/cb") "high" 3
                     2000 "msg-2")
              processing_doc)
    as (H1 & _ & H3 & _).
  - reflexivity.
  - intros n. exists "rate limit exceeded". reflexivity.
  - reflexivity.
  - split; [exact H1 | exact H3].
Defined.

(** ** The [started_at] stamp *)

(** C8, as stated, fails: the first attempt on [gen-1] began at 1100; the
    job is redelivered and processed again at 5000, and [started_at] is
    then 5000. *)
Lemma retry_moves_started_at :
  field_of "started_at" "gen-1" (shop processing_doc) = Some (VTime 1100) /\
  field_of "started_at" "gen-1"
    (callback_state (deliver uploads_fail (message_of job1)
                             (worker_loop (shop processing_doc))))
    = Some (VTime 5000).
Proof. split; vm_compute; reflexivity. Qed.

(** C8, amended: [started_at] is stamped at every transition to
    [processing], whether or not it was set before: after a job message is
    processed, first delivery or retry, it is the time at which that run
    began, and the repository's [update_status] to [PROCESSING] (with
    keyword arguments that do not name [id]) likewise writes the current
    time. It reflects the latest attempt. *)
Theorem started_at_is_restamped (s : surroundings)
    (job : GenerationJobMessage) (raw : ServiceBusMessage) (db : database)
    (doc : document) (now : Z) (kwargs : document) :
  find_one (generation_id job) db = Some doc ->
  field_of "started_at" (generation_id job)
           (snd (process_generation_job s job raw db))
    = Some (VTime (started s)) /\
  (kwargs !! "id" = None ->
   field_of "started_at" (generation_id job)
            (snd (update_status now (generation_id job) mongodb.PROCESSING
                                kwargs db))
     = Some (VTime now)).
Proof.
  intros Hdoc. split.
  - destruct (process_generation_job_record s job raw db doc Hdoc)
      as (e & _ & _ & _ & _ & H). exact H.
  - intros Hid. unfold update_status.
    apply (field_written _ _ _ _ doc); [exact Hdoc | |].
    + rewrite lookup_insert_ne by done.
      apply lookup_union_None. split; [exact Hid | reflexivity].
    + rewrite lookup_insert_ne by done. apply lookup_insert_eq.
Qed.

Lemma started_at_is_restamped_witness :
  field_of "started_at" "gen-1"
           (snd (process_generation_job one_of_two job1 (message_of job1)
                   (shop processing_doc)))
    = Some (VTime 5000) /\
  field_of "started_at" "gen-1"
           (snd (update_status 7000 "gen-1" mongodb.PROCESSING ∅
                               (shop processing_doc)))
    = Some (VTime 7000).
Proof.
  destruct (started_at_is_restamped one_of_two job1 (message_of job1)
              (shop processing_doc) processing_doc 7000 ∅ eq_refl)
    as [H1 H2].
  split; [exact H1 | apply H2; reflexivity].
Defined.

(** ** Artifacts *)

(** C7: [_upload_images] never returns an artifact. [upload_image]
    returns a tuple and the loop body subscripts it with a string, so the
    body raises for every artifact, whether or not the blob store took
    it, and [_upload_images] raises in its turn. Hence every job is
    handled as a failure; one whose synthesis succeeded and of which an
    artifact was downloaded leaves its record [failed] with the message
    of [_upload_images]. *)
Theorem uploaded_artifact_is_never_recorded (s : surroundings)
    (job : GenerationJobMessage) (raw : ServiceBusMessage) (db : database) :
  (forall images,
     _upload_images s (generation_id job) (user_id job) images =
       Raise (Raised Exception
                     "Failed to upload any images to blob storage")) /\
  fst (process_generation_job s job raw db) = Ok false /\
  forall doc p,
    find_one (generation_id job) db = Some doc ->
    _call_replicate_api s = Ok p ->
    replicate_service.status p = replicate_service.SUCCEEDED ->
    replicate_service.download_all_outputs (download_image s)
      (replicate_service.output p) <> [] ->
    status_of (generation_id job) (snd (process_generation_job s job raw db))
      = Some (VStr (value_of mongodb.FAILED)) /\
    field_of "error_message" (generation_id job)
             (snd (process_generation_job s job raw db))
      = Some (VStr "Failed to upload any images to blob storage").
Proof.
  split; [intros images; apply _upload_images_raises |].
  split; [apply process_generation_job_returns |].
  intros doc p Hdoc Hcall Hstatus Himages.
  destruct (process_generation_job_record s job raw db doc Hdoc)
    as (e & Hall & Hst & Herr & _).
  split; [exact Hst |]. rewrite Herr.
  specialize (Hall db). unfold run_pipeline in Hall.
  rewrite Hcall, Hstatus in Hall. cbn [negb replicate_service.is_succeeded]
    in Hall.
  destruct (replicate_service.output p) as [| u us];
    [now destruct Himages |].
  destruct (replicate_service.download_all_outputs _ (u :: us));
    [now destruct Himages |].
  rewrite _upload_images_raises in Hall. now injection Hall as <-.
Qed.

(** Two outputs, of which one is fetched; the blob store takes the upload
    and [upload_image] returns its tuple: the job is a failure. *)
Lemma uploaded_artifact_is_never_recorded_witness :
  is_ok (upload_image one_of_two "user-1" "gen-1" "output_0.png" png) = true /\
  fst (process_generation_job one_of_two job1 (message_of job1)
         (shop pending_doc)) = Ok false /\
  field_of "error_message" "gen-1"
    (snd (process_generation_job one_of_two job1 (message_of job1)
            (shop pending_doc)))
    = Some (VStr "Failed to upload any images to blob storage").
Proof.
  split; [reflexivity |].
  destruct (uploaded_artifact_is_never_recorded one_of_two job1
              (message_of job1) (shop pending_doc)) as (_ & Hfalse & Hrec).
  split; [exact Hfalse |].
  destruct (Hrec pending_doc two_outputs eq_refl eq_refl eq_refl) as [_ H];
    [discriminate | exact H].
Defined.

End worker.

(** * Further properties of the repositories *)

Section repository_writes.
Import mongodb worker_service samples.

(** When a record whose model carries a [started_at] stamp is updated to
    [COMPLETED] or [FAILED] and the update does not itself carry
    [started_at], the stored [processing_time_ms] is the time since
    [started_at] as [update_status] computes it: a [processing_time_ms]
    passed by the caller, as [mark_as_completed] does, is overwritten.
    [completed_at] is stamped as well. *)
Theorem computed_processing_time_wins (now started : Z) (gid : string)
    (st : GenerationStatus) (kwargs doc model : document)
    (db : database) :
  st = COMPLETED \/ st = FAILED ->
  find_one gid db = Some doc ->
  model_class db doc = Ok model ->
  model !! "started_at" = Some (VTime started) ->
  kwargs !! "started_at" = None ->
  kwargs !! "id" = None ->
  field_of "processing_time_ms" gid (snd (update_status now gid st kwargs db))
    = Some (VElapsedMs started now) /\
  field_of "completed_at" gid (snd (update_status now gid st kwargs db))
    = Some (VTime now).
Proof.
  intros Hst Hdoc Hmodel Hstarted Hkw Hid.
  assert (Hnone : (<["completed_at" := VTime now]>
                     (kwargs ∪ ({[ "status" := VStr (value_of st) ]}
                                  : document))) !! "started_at"
                  = None).
  { rewrite lookup_insert_ne by done.
    apply lookup_union_None. split; [exact Hkw |].
    now rewrite lookup_singleton_ne by done. }
  assert (Hnoid : (<["processing_time_ms" := VElapsedMs started now]>
                     (<["completed_at" := VTime now]>
                        (kwargs ∪ ({[ "status" := VStr (value_of st) ]}
                                     : document)))) !! "id" = None).
  { rewrite !lookup_insert_ne by done.
    apply lookup_union_None. split; [exact Hid |].
    now rewrite lookup_singleton_ne by done. }
  unfold update_status, find_by_id.
  destruct Hst as [-> | ->]; rewrite Hnone, Hdoc, Hmodel;
    cbn [bind mbind option_bind]; rewrite Hstarted; split;
    apply (field_written _ _ _ _ doc); try exact Hdoc; try exact Hnoid;
    rewrite lookup_insert_ne by done;
    rewrite ?lookup_insert_eq; try reflexivity;
    rewrite lookup_insert_ne by done; apply lookup_insert_eq.
Qed.

Lemma computed_processing_time_wins_witness :
  field_of "processing_time_ms" "gen-1"
    (snd (update_status 1500 "gen-1" COMPLETED
            {[ "processing_time_ms" := VInt 99 ]} (shop processing_doc)))
    = Some (VElapsedMs 1100 1500).
Proof.
  destruct (computed_processing_time_wins 1500 1100 "gen-1" COMPLETED
              {[ "processing_time_ms" := VInt 99 ]} processing_doc
              processing_doc (shop processing_doc)) as [H _];
    [left; reflexivity | reflexivity | reflexivity | reflexivity
     | reflexivity | reflexivity |].
  exact H.
Defined.

(** [update_status] to [COMPLETED] or [FAILED] without a [started_at]
    among its keyword arguments reads the record first; when the model
    class raises on the stored document, that exception leaves
    [update_status] and nothing is written, whatever the status asked
    for. *)
Theorem unreadable_record_is_not_updated (now : Z) (gid : string)
    (st : GenerationStatus) (kwargs doc : document) (db : database)
    (e : exn) :
  st = COMPLETED \/ st = FAILED ->
  find_one gid db = Some doc ->
  model_class db doc = Raise e ->
  kwargs !! "started_at" = None ->
  update_status now gid st kwargs db = (Raise e, db).
Proof.
  intros Hst Hdoc Hmodel Hkw.
  assert (Hnone : (<["completed_at" := VTime now]>
                     (kwargs ∪ ({[ "status" := VStr (value_of st) ]}
                                  : document))) !! "started_at"
                  = None).
  { rewrite lookup_insert_ne by done.
    apply lookup_union_None. split; [exact Hkw |].
    now rewrite lookup_singleton_ne by done. }
  unfold update_status, find_by_id.
  destruct Hst as [-> | ->]; now rewrite Hnone, Hdoc, Hmodel.
Qed.

(** The record without a [prompt] is not marked failed by the
    repository. *)
Lemma unreadable_record_is_not_updated_witness :
  snd (update_status 1500 "gen-1" FAILED
         {[ "error_message" := VStr "provider error" ]}
         (shop promptless_doc)) = shop promptless_doc.
Proof.
  rewrite (unreadable_record_is_not_updated 1500 "gen-1" FAILED
             {[ "error_message" := VStr "provider error" ]} promptless_doc
             (shop promptless_doc)
             (Raised ValidationError "validation error for Generation"));
    [reflexivity | right; reflexivity | reflexivity | reflexivity
     | reflexivity].
Defined.

End repository_writes.

(** * Further properties of the worker *)

Section worker_writes.
Import queue_service mongodb worker_service samples.

(** Processing a job never creates or deletes a generation record, never
    changes the [id] of one, and never writes to the record of another
    generation. *)
Theorem worker_touches_one_record (s : surroundings)
    (job : GenerationJobMessage) (raw : ServiceBusMessage) (db : database) :
  map (fun d : document => d !! "id")
      (generations (snd (process_generation_job s job raw db)))
    = map (fun d : document => d !! "id") (generations db) /\
  (forall other, other <> generation_id job ->
     find_one other (snd (process_generation_job s job raw db))
       = find_one other db).
Proof.
  destruct (process_generation_job_failed s job raw db) as (e & _ & ->).
  cbn [snd]. unfold _update_status. split.
  - rewrite update_by_id_ids by reflexivity.
    now rewrite update_by_id_ids by reflexivity.
  - intros other Hne.
    rewrite update_by_id_others by (reflexivity || exact Hne).
    now rewrite update_by_id_others by (reflexivity || exact Hne).
Qed.

(** When the record of a job is not in the database (it was never
    created, or it was deleted), processing the job writes nothing at all,
    whatever the outcome of the job. *)
Theorem absent_record_is_not_written (s : surroundings)
    (job : GenerationJobMessage) (raw : ServiceBusMessage) (db : database) :
  find_one (generation_id job) db = None ->
  snd (process_generation_job s job raw db) = db.
Proof.
  intros Habsent.
  destruct (process_generation_job_failed s job raw db) as (e & _ & ->).
  cbn [snd]. unfold _update_status.
  rewrite (update_by_id_absent (started s) _ _ db Habsent). cbn [snd].
  now rewrite (update_by_id_absent (finished s) _ _ db Habsent).
Qed.

(** The record of [gen-1] is deleted; its job is then processed, and the
    database still has no trace of it. *)
Lemma absent_record_is_not_written_witness :
  process_generation_job one_of_two job1 (message_of job1)
    (snd (delete_by_id "gen-1" (shop completed_doc)))
  = (Ok false, snd (delete_by_id "gen-1" (shop completed_doc))).
Proof.
  pose proof (absent_record_is_not_written one_of_two job1 (message_of job1)
                (snd (delete_by_id "gen-1" (shop completed_doc))) eq_refl)
    as Hdb.
  destruct (process_generation_job one_of_two job1 (message_of job1)
              (snd (delete_by_id "gen-1" (shop completed_doc))))
    as [r db'] eqn:Hrun.
  cbn [snd] in Hdb. subst db'. f_equal.
  change r with (fst (r, snd (delete_by_id "gen-1" (shop completed_doc)))).
  rewrite <- Hrun. reflexivity.
Defined.

(** Processing a job writes only [status], [updated_at], [started_at],
    [error_message], [failed_at] and [attempts]: every other field of the
    record, the results of an earlier completed run among them, is
    kept. *)
Theorem failed_run_keeps_other_fields (s : surroundings)
    (job : GenerationJobMessage) (raw : ServiceBusMessage)
    (db : database) (k : string) :
  ~ In k ["status"; "updated_at"; "started_at"; "error_message";
          "failed_at"; "attempts"] ->
  field_of k (generation_id job) (snd (process_generation_job s job raw db))
    = field_of k (generation_id job) db.
Proof.
  intros Hk.
  assert (Hne : forall x,
            In x ["status"; "updated_at"; "started_at"; "error_message";
                  "failed_at"; "attempts"] -> k <> x)
    by (intros x Hx ->; exact (Hk Hx)).
  assert (H1 : k <> "status") by (apply Hne; cbn; tauto).
  assert (H2 : k <> "updated_at") by (apply Hne; cbn; tauto).
  assert (H3 : k <> "started_at") by (apply Hne; cbn; tauto).
  assert (H4 : k <> "error_message") by (apply Hne; cbn; tauto).
  assert (H5 : k <> "failed_at") by (apply Hne; cbn; tauto).
  assert (H6 : k <> "attempts") by (apply Hne; cbn; tauto).
  destruct (process_generation_job_failed s job raw db) as (e & _ & ->).
  cbn [snd]. unfold _update_status.
  rewrite field_untouched; [| reflexivity | now apply failure_fields].
  apply field_untouched; [reflexivity |].
  rewrite lookup_insert_ne by congruence.
  apply lookup_union_None. split.
  - now rewrite lookup_singleton_ne by congruence.
  - rewrite lookup_insert_ne by congruence.
    now rewrite lookup_singleton_ne by congruence.
Qed.

Lemma failed_run_keeps_other_fields_witness :
  field_of "all_outputs" "gen-1"
    (snd (process_generation_job rate_limited job1 (message_of job1)
            (shop completed_doc)))
  = Some (VOutputs [stored]).
Proof.
  assert (Hk : ~ In "all_outputs"
                 ["status"; "updated_at"; "started_at"; "error_message";
                  "failed_at"; "attempts"]).
  { cbn. intros H. repeat (destruct H as [H | H]; [discriminate H |]).
    exact H. }
  exact (failed_run_keeps_other_fields rate_limited job1 (message_of job1)
           (shop completed_doc) "all_outputs" Hk).
Defined.

End worker_writes.

Section worker_pipeline.
Import queue_service mongodb worker_service samples.

Lemma retrying_first_success {A : Type} (call : nat -> result A)
    (attempts n : nat) (text : string) (a : A) :
  retrying attempts n text call = Ok a <->
  exists i, (i < attempts)%nat /\ call (n + i)%nat = Ok a /\
            forall j, (j < i)%nat -> is_ok (call (n + j)%nat) = false.
Proof.
  revert n. induction attempts as [| k IH]; intros n; cbn.
  - split; [discriminate | intros (i & Hi & _); lia].
  - destruct (call n) as [r | e] eqn:Hcall.
    + split.
      * intros [= ->]. exists 0%nat. rewrite Nat.add_0_r.
        repeat split; [lia | exact Hcall | intros j Hj; lia].
      * intros ([| i] & Hi & Hok & Hbefore).
        -- rewrite Nat.add_0_r, Hcall in Hok. exact Hok.
        -- specialize (Hbefore 0%nat ltac:(lia)).
           rewrite Nat.add_0_r, Hcall in Hbefore. discriminate Hbefore.
    + rewrite IH. split.
      * intros (i & Hi & Hok & Hbefore). exists (S i).
        repeat split; [lia | | ].
        -- now replace (n + S i)%nat with (S n + i)%nat by lia.
        -- intros [| j] Hj.
           ++ rewrite Nat.add_0_r, Hcall. reflexivity.
           ++ replace (n + S j)%nat with (S n + j)%nat by lia.
              apply Hbefore. lia.
      * intros ([| i] & Hi & Hok & Hbefore).
        -- rewrite Nat.add_0_r, Hcall in Hok. discriminate Hok.
        -- exists i. repeat split; [lia | | ].
           ++ now replace (S n + i)%nat with (n + S i)%nat by lia.
           ++ intros j Hj.
              replace (S n + j)%nat with (n + S j)%nat by lia.
              apply Hbefore. lia.
Qed.

(** The provider call is tried at most three times: [_call_replicate_api]
    returns a prediction exactly when one of the first three calls returns
    it after all earlier ones raised, so a fourth call is never made and
    the result is that of the first call that does not raise. *)
Theorem replicate_call_is_tried_three_times (s : surroundings)
    (p : replicate_service.prediction) :
  _call_replicate_api s = Ok p <->
  exists i, (i < 3)%nat /\ generate_and_wait s i = Ok p /\
            forall j, (j < i)%nat -> is_ok (generate_and_wait s j) = false.
Proof. unfold _call_replicate_api. apply retrying_first_success. Qed.

(** [download_all_outputs] returns exactly the artifacts whose download
    succeeded: never more artifacts than URLs, none when every download
    fails (and only then), and each returned artifact is the download of
    one of the URLs. *)
Theorem downloads_keep_what_was_fetched
    (fetch : string -> option replicate_service.image)
    (output_urls : list string) :
  (length (replicate_service.download_all_outputs fetch output_urls)
     <= length output_urls)%nat /\
  (replicate_service.download_all_outputs fetch output_urls = [] <->
     forall url, In url output_urls -> fetch url = None) /\
  (forall img,
     In img (replicate_service.download_all_outputs fetch output_urls) <->
     exists url, In url output_urls /\ fetch url = Some img).
Proof.
  unfold replicate_service.download_all_outputs.
  induction output_urls as [| u us (IHlen & IHnil & IHin)]; cbn.
  - repeat split; try lia; try tauto.
    intros (url & [] & _).
  - destruct (fetch u) as [img0 |] eqn:Hu; cbn.
    + split; [lia |]. split.
      * split; [discriminate |]. intros H.
        specialize (H u (or_introl eq_refl)). congruence.
      * intros img. rewrite IHin. split.
        -- intros [<- | (url & Hin & Hf)]; [exists u | exists url]; tauto.
        -- intros (url & [<- | Hin] & Hf);
             [left; congruence | right; eauto].
    + split; [lia |]. split.
      * rewrite IHnil. split.
        -- intros H url [<- | Hin]; [exact Hu | now apply H].
        -- intros H url Hin. apply H. now right.
      * intros img. rewrite IHin. split.
        -- intros (url & Hin & Hf). exists url. tauto.
        -- intros (url & [<- | Hin] & Hf); [congruence | eauto].
Qed.

End worker_pipeline.

Section worker_bookkeeping.
Import queue_service mongodb worker_service samples.
Context {T : Type}.
Variable plus : T -> T -> T.
Variable elapsed : surroundings -> T.

Lemma receive_one_counts (x : surroundings * ServiceBusMessage)
    (st : loop_state (W := database * WorkerMetrics (T := T))) :
  let st' := receive_one at_parse 1 (Some (process_and_record plus elapsed))
                         x st in
  let m := snd (callback_state st) in
  let m' := snd (callback_state st') in
  exists ev,
    settled st' = settled st ++ [ev] /\
    start_time m' = start_time m /\
    match snd ev with
    | Complete =>
        jobs_processed m' = jobs_processed m + 1 /\
        jobs_succeeded m' = jobs_succeeded m + 1 /\
        jobs_failed m' = jobs_failed m
    | Abandon =>
        jobs_processed m' = jobs_processed m + 1 /\
        jobs_succeeded m' = jobs_succeeded m /\
        jobs_failed m' = jobs_failed m + 1
    | DeadLetter _ _ =>
        jobs_processed m' = jobs_processed m /\
        jobs_succeeded m' = jobs_succeeded m /\
        jobs_failed m' = jobs_failed m
    end.
Proof.
  destruct x as [s message]. cbn zeta. unfold receive_one.
  destruct (from_json _ _) as [job | ex] eqn:Hparse.
  - unfold process_and_record.
    pose proof (process_generation_job_returns s job message
                  (fst (callback_state st))) as Hb.
    destruct (process_generation_job s job message (fst (callback_state st)))
      as [outcome db']. cbn in Hb. subst outcome.
    cbn; eexists; (split; [reflexivity |]); cbn; auto.
  - destruct (from_json_raises _ _ _ Hparse) as (cls & msg & ->). cbn.
    eexists. split; [reflexivity |]. cbn. auto.
Qed.

Lemma receive_loop_counts
    (incoming : list (surroundings * ServiceBusMessage))
    (st : loop_state (W := database * WorkerMetrics (T := T))) :
  let st' := receive_loop at_parse 1 (Some (process_and_record plus elapsed))
                          incoming st in
  let m := snd (callback_state st) in
  let m' := snd (callback_state st') in
  let completed l :=
    Z.of_nat (length (List.filter
                        (fun ev : event =>
                           match snd ev with Complete => true | _ => false end)
                        l)) in
  let abandoned l :=
    Z.of_nat (length (List.filter
                        (fun ev : event =>
                           match snd ev with Abandon => true | _ => false end)
                        l)) in
  jobs_succeeded m' - jobs_succeeded m
    = completed (settled st') - completed (settled st) /\
  jobs_failed m' - jobs_failed m
    = abandoned (settled st') - abandoned (settled st) /\
  jobs_processed m' - jobs_processed m
    = (jobs_succeeded m' - jobs_succeeded m)
      + (jobs_failed m' - jobs_failed m) /\
  start_time m' = start_time m.
Proof.
  cbn zeta. revert st. induction incoming as [| x rest IH]; intros st.
  - cbn. repeat split; lia.
  - cbn [receive_loop].
    destruct (receive_one_counts x st) as (ev & Hset & Hstart & Hev).
    set (st1 := receive_one at_parse 1
                  (Some (process_and_record plus elapsed)) x st) in *.
    assert (Hstep :
      jobs_succeeded (snd (callback_state st1))
        - jobs_succeeded (snd (callback_state st))
      = Z.of_nat (length (List.filter
                    (fun ev : event =>
                       match snd ev with Complete => true | _ => false end)
                    (settled st1)))
        - Z.of_nat (length (List.filter
                    (fun ev : event =>
                       match snd ev with Complete => true | _ => false end)
                    (settled st))) /\
      jobs_failed (snd (callback_state st1))
        - jobs_failed (snd (callback_state st))
      = Z.of_nat (length (List.filter
                    (fun ev : event =>
                       match snd ev with Abandon => true | _ => false end)
                    (settled st1)))
        - Z.of_nat (length (List.filter
                    (fun ev : event =>
                       match snd ev with Abandon => true | _ => false end)
                    (settled st))) /\
      jobs_processed (snd (callback_state st1))
        - jobs_processed (snd (callback_state st))
      = (jobs_succeeded (snd (callback_state st1))
           - jobs_succeeded (snd (callback_state st)))
        + (jobs_failed (snd (callback_state st1))
             - jobs_failed (snd (callback_state st)))).
    { rewrite Hset, !List.filter_app, !length_app. cbn [List.filter].
      destruct (snd ev); cbn [length]; lia. }
    destruct (stopped st1).
    + destruct Hstep as (? & ? & ?). repeat split; assumption.
    + destruct (IH st1) as (I1 & I2 & I3 & I4).
      destruct Hstep as (S1 & S2 & S3).
      repeat split; [lia | lia | lia | congruence].
Qed.

(** After any run of deliveries handled by the worker from fresh metrics,
    [jobs_succeeded] is the number of messages completed, [jobs_failed] the
    number of messages abandoned, and [jobs_processed] is their sum;
    dead-lettered (unparsable) messages are not counted, and [start_time]
    stays the time of creation. *)
Theorem metrics_count_settlements
    (incoming : list (surroundings * ServiceBusMessage)) (db : database)
    (zero : T) (now : Z) :
  let st := receive_messages at_parse 1
              (Some (process_and_record plus elapsed)) incoming
              (db, new_metrics zero now) in
  let m := snd (callback_state st) in
  jobs_succeeded m =
    Z.of_nat (length (List.filter
                        (fun ev : event =>
                           match snd ev with Complete => true | _ => false end)
                        (settled st))) /\
  jobs_failed m =
    Z.of_nat (length (List.filter
                        (fun ev : event =>
                           match snd ev with Abandon => true | _ => false end)
                        (settled st))) /\
  jobs_processed m = jobs_succeeded m + jobs_failed m /\
  start_time m = now.
Proof.
  cbn zeta. unfold receive_messages.
  destruct (receive_loop_counts incoming
              (mkLoop [] [] (db, new_metrics zero now) false))
    as (H1 & H2 & H3 & H4).
  cbn in H1, H2, H3, H4. repeat split; first [lia | exact H4].
Qed.

End worker_bookkeeping.

(** * Properties of the submission path *)

Section submission.
Import queue_service mongodb generate samples.

(** A submission that is refused because the balance is short (on the
    user loaded at authentication: 402; or in the store: 500) or because
    the user is not in the store changes nothing: no credit is taken, no
    record is created and nothing is queued. *)
Theorem refused_submission_changes_nothing (TEXT_TO_IMAGE : string)
    (e : ambient) (deducted_at settled_at : Z) (ambient_at : nat -> ambient)
    (transport_at : nat -> transport) (credits : Z)
    (request : GenerationRequest) (current_user : User) (s : site) :
  user_credits_remaining current_user < credits \/
  users (accounts s) !! user_id current_user = None \/
  (exists balance, users (accounts s) !! user_id current_user = Some balance
                   /\ balance < credits) ->
  snd (create_generation TEXT_TO_IMAGE e deducted_at settled_at ambient_at
         transport_at credits request current_user s) = s /\
  exists code detail,
    fst (create_generation TEXT_TO_IMAGE e deducted_at settled_at ambient_at
           transport_at credits request current_user s)
      = HTTPException code detail /\
    (user_credits_remaining current_user < credits -> code = 402).
Proof.
  intros Hcase. unfold create_generation.
  destruct (user_credits_remaining current_user <? credits) eqn:Hsnap.
  - cbn. split; [reflexivity |]. eauto.
  - apply Z.ltb_ge in Hsnap.
    destruct Hcase as [Hlt | [Hnone | (balance & Hsome & Hlt)]]; [lia | |].
    + unfold deduct_credits. rewrite Hnone. cbn.
      split; [now destruct s |]. eexists _, _. split; [reflexivity | lia].
    + unfold deduct_credits. rewrite Hsome.
      rewrite (proj2 (Z.ltb_lt _ _) Hlt). cbn.
      split; [now destruct s |]. eexists _, _. split; [reflexivity | lia].
Qed.

Lemma refused_submission_changes_nothing_witness :
  create_generation "text_to_image" later 2000 2100 stamps
                    (fun _ => Delivered) 9 fox_request user1 front
  = (HTTPException 402 "Insufficient credits. Required: 9, Available: 8",
     front).
Proof.
  destruct (refused_submission_changes_nothing "text_to_image" later 2000
              2100 stamps (fun _ => Delivered) 9 fox_request user1 front)
    as [Hsite _]; [left; cbn; lia |].
  destruct (create_generation "text_to_image" later 2000 2100 stamps
              (fun _ => Delivered) 9 fox_request user1 front)
    as [r s'] eqn:Hrun.
  cbn [snd] in Hsite. subst s'. f_equal.
  change r with (fst (r, front)). rewrite <- Hrun. reflexivity.
Defined.

(** An accepted submission takes the credits once, creates one pending
    record that remembers the amount, and queues one message for that
    record: the answer carries the new generation id and the amount, the
    balance in the store goes down by exactly the amount, and the body of
    the queued message parses to a first-attempt job for the same
    generation and user. *)
Theorem accepted_submission_charges_once (TEXT_TO_IMAGE : string)
    (e reader : ambient) (deducted_at settled_at : Z)
    (ambient_at : nat -> ambient)
    (transport_at : nat -> transport) (credits balance : Z)
    (request : GenerationRequest) (current_user : User) (s : site) :
  credits <= user_credits_remaining current_user ->
  users (accounts s) !! user_id current_user = Some balance ->
  credits <= balance ->
  transport_at 0%nat = Delivered ->
  let r := create_generation TEXT_TO_IMAGE e deducted_at settled_at
             ambient_at transport_at credits request current_user s in
  fst r = Accepted (uuid4 e)
                   (_estimate_processing_time (request_model request))
                   credits /\
  users (accounts (snd r)) !! user_id current_user
    = Some (balance - credits) /\
  (exists data, records (snd r) !! uuid4 e = Some data /\
                data_status data = PENDING /\
                data_credits_used data = credits /\
                data_user_id data = user_id current_user) /\
  exists message,
    bus (snd r) = mkQueues (main_queue (bus s) ++ [message])
                           (deadletter (bus s)) /\
    from_json reader (sb_body message) =
      Ok (mkJob (uuid4 e) (user_id current_user) TEXT_TO_IMAGE
                (request_prompt request) (request_model request)
                (default ∅ (request_settings request))
                (request_callback_url request) "normal" 1
                (utcnow reader) (uuid4 reader)).
Proof.
  intros Hsnap Huser Hle Hsend. cbn zeta. unfold create_generation.
  rewrite (proj2 (Z.ltb_ge _ _) Hsnap).
  unfold deduct_credits. rewrite Huser, (proj2 (Z.ltb_ge _ _) Hle).
  cbn [send_retrying]. rewrite Hsend.
  rewrite send_generation_request_delivered.
  unfold increment_generations. cbn [users with_users with_users_updated_at].
  rewrite lookup_insert_eq.
  cbn [fst snd accounts records bus users with_users_updated_at].
  split; [reflexivity |]. split; [apply lookup_insert_eq |]. split.
  - eexists. split; [apply lookup_insert_eq |]. repeat split.
  - eexists. split; reflexivity.
Qed.

Lemma accepted_submission_charges_once_witness :
  fst (create_generation "text_to_image" later 2000 2100 stamps
                         (fun _ => Delivered) 5 fox_request user1 front)
    = Accepted "msg-2" 15 5 /\
  users (accounts (snd (create_generation "text_to_image" later 2000 2100
                          stamps (fun _ => Delivered) 5 fox_request user1
                          front)))
    !! "user-1" = Some 3.
Proof.
  destruct (accepted_submission_charges_once "text_to_image" later later
              2000 2100 stamps (fun _ => Delivered) 5 8 fox_request user1
              front)
    as (H1 & H2 & _); [cbn; lia | reflexivity | lia | reflexivity |].
  split; [exact H1 | exact H2].
Defined.

(** When the send fails without raising, the credits are given back:
    every balance is what it was before the request, nothing is queued,
    and of the accounts only the user's [updated_at] differs, which is
    the time of the [add_credits]. The pending record created for the
    request stays in the store, although no message will ever be
    delivered for it. *)
Theorem unqueued_submission_is_refunded (TEXT_TO_IMAGE why : string)
    (e : ambient) (deducted_at settled_at : Z) (ambient_at : nat -> ambient)
    (transport_at : nat -> transport) (credits balance : Z)
    (request : GenerationRequest) (current_user : User) (s : site) :
  credits <= user_credits_remaining current_user ->
  users (accounts s) !! user_id current_user = Some balance ->
  credits <= balance ->
  transport_at 0%nat = OtherFailure why ->
  let r := create_generation TEXT_TO_IMAGE e deducted_at settled_at
             ambient_at transport_at credits request current_user s in
  fst r = HTTPException 500 "Failed to queue generation request" /\
  users (accounts (snd r)) = users (accounts s) /\
  users_updated_at (accounts (snd r))
    = <[user_id current_user := settled_at]> (users_updated_at (accounts s)) /\
  generations (accounts (snd r)) = generations (accounts s) /\
  subscriptions (accounts (snd r)) = subscriptions (accounts s) /\
  usage_logs (accounts (snd r)) = usage_logs (accounts s) /\
  bus (snd r) = bus s /\
  exists data, records (snd r) !! uuid4 e = Some data /\
               data_status data = PENDING.
Proof.
  intros Hsnap Huser Hle Hsend. cbn zeta.
  pose proof (add_credits_undoes_deduct deducted_at settled_at
                (user_id current_user) credits balance (accounts s)
                Huser Hle) as Hundo.
  cbn zeta in Hundo. destruct Hundo as (U1 & U2 & U3 & U4 & U5).
  unfold create_generation.
  rewrite (proj2 (Z.ltb_ge _ _) Hsnap).
  unfold deduct_credits in *. rewrite Huser, (proj2 (Z.ltb_ge _ _) Hle) in *.
  cbn [send_retrying]. rewrite Hsend.
  cbn [send_generation_request fst snd accounts records bus] in *.
  split; [reflexivity |].
  split; [exact U1 |]. split; [exact U2 |]. split; [exact U3 |].
  split; [exact U4 |]. split; [exact U5 |]. split; [reflexivity |].
  eexists. split; [apply lookup_insert_eq | reflexivity].
Qed.

Lemma unqueued_submission_is_refunded_witness :
  users (accounts (snd (create_generation "text_to_image" later 2000 2100
                          stamps (fun _ => OtherFailure "closed") 5
                          fox_request user1 front)))
    = users bank /\
  users_updated_at
    (accounts (snd (create_generation "text_to_image" later 2000 2100
                      stamps (fun _ => OtherFailure "closed") 5
                      fox_request user1 front)))
    !! "user-1" = Some 2100.
Proof.
  destruct (unqueued_submission_is_refunded "text_to_image" "closed" later
              2000 2100 stamps (fun _ => OtherFailure "closed") 5 8
              fox_request user1 front)
    as (_ & H1 & H2 & _); [cbn; lia | reflexivity | lia | reflexivity |].
  split; [exact H1 |]. rewrite H2. apply lookup_insert_eq.
Defined.

(** When the broker raises [ServiceBusError] on all three tries of the
    send, the request is answered with 500 and the credits are not given
    back: the balance stays reduced by the amount, a pending record stays
    in the store and nothing is queued. *)
Theorem broker_error_keeps_the_charge (TEXT_TO_IMAGE : string)
    (e : ambient) (deducted_at settled_at : Z) (ambient_at : nat -> ambient)
    (transport_at : nat -> transport) (credits balance : Z)
    (request : GenerationRequest) (current_user : User) (s : site) :
  credits <= user_credits_remaining current_user ->
  users (accounts s) !! user_id current_user = Some balance ->
  credits <= balance ->
  (forall i, exists why, transport_at i = BusFailure why) ->
  let r := create_generation TEXT_TO_IMAGE e deducted_at settled_at
             ambient_at transport_at credits request current_user s in
  fst r = HTTPException 500 "Failed to create generation request" /\
  users (accounts (snd r)) !! user_id current_user
    = Some (balance - credits) /\
  bus (snd r) = bus s /\
  exists data, records (snd r) !! uuid4 e = Some data /\
               data_status data = PENDING /\
               data_credits_used data = credits.
Proof.
  intros Hsnap Huser Hle Hsend. cbn zeta. unfold create_generation.
  rewrite (proj2 (Z.ltb_ge _ _) Hsnap).
  unfold deduct_credits. rewrite Huser, (proj2 (Z.ltb_ge _ _) Hle).
  rewrite (send_retrying_all_raise 3 0 ambient_at transport_at _ _ _ _ _ _ _
             _ _ _ Hsend).
  cbn [fst snd accounts records bus].
  split; [reflexivity |]. split; [cbn; apply lookup_insert_eq |].
  split; [reflexivity |].
  eexists. split; [apply lookup_insert_eq |]. split; reflexivity.
Qed.

Lemma broker_error_keeps_the_charge_witness :
  users (accounts (snd (create_generation "text_to_image" later 2000 2100
                          stamps (fun _ => BusFailure "down") 5 fox_request
                          user1 front)))
    !! "user-1" = Some 3.
Proof.
  destruct (broker_error_keeps_the_charge "text_to_image" later 2000 2100
              stamps (fun _ => BusFailure "down") 5 8 fox_request user1
              front)
    as (_ & H & _); [cbn; lia | reflexivity | lia | |].
  - intros i. now exists "down".
  - exact H.
Defined.

End submission.
